(** * Skillora voice assistant server: the conversational turn pipeline

    A shallow embedding of the Express server of the repository (the file
    that requires './config/data'): language correction, the per-call
    session store, the phone and web turn handlers, the text-to-speech step
    and the audio file janitor.

    Conventions of the embedding.
    - A JavaScript string is a [string]; each [ascii] stands for one UTF-16
      code unit below 256, so the regular expression classes are restricted
      to that range.
    - The two JavaScript [Map]s are [gmap]s keyed by strings; the files on
      disk are a [gmap] from path to contents (directories are not
      modelled: [mkdirSync] of the audio directory is left out).
    - The remote providers, [uuidv4], [Date.now] and [process.env] are
      inputs of each request, gathered in the record [ambient].
    - A handler is a computation of the monad [M]: it threads the process
      state [world] and may throw; [try_catch] is the source's try/catch.
    - Each handler runs to completion on its state: the interleaving of
      two requests at an [await] is outside this model. *)

From Stdlib Require Import QArith Ascii.
From stdpp Require Import gmap strings list pretty.

Open Scope string_scope.
Open Scope list_scope.

(* ===================================================================== *)
(** ** JavaScript values and property lookup *)
(* ===================================================================== *)

Module JS.

(** The values a property read on one of the two literal tables can
    produce: an own string, or something inherited from
    [Object.prototype]. *)
Inductive value :=
| Str (s : string)
| Function (name : string)
| ObjectPrototype.

#[global] Instance value_eq_dec : EqDecision value.
Proof. solve_decision. Defined.

(** Method names that every plain object inherits. *)
Definition prototype_methods : list string :=
  [ "__defineGetter__"; "__defineSetter__"; "hasOwnProperty";
    "__lookupGetter__"; "__lookupSetter__"; "isPrototypeOf";
    "propertyIsEnumerable"; "toString"; "valueOf"; "toLocaleString" ].

Definition prototype_get (k : string) : option value :=
  if decide (k = "constructor") then Some (Function "Object")
  else if decide (k = "__proto__") then Some ObjectPrototype
  else if decide (k ∈ prototype_methods) then Some (Function k)
  else None.

(** [obj[k]] for an object literal [obj] with string-valued own
    properties; [None] is [undefined]. *)
Definition get (obj : gmap string string) (k : string) : option value :=
  match obj !! k with
  | Some s => Some (Str s)
  | None => prototype_get k
  end.

Definition truthy (v : value) : bool :=
  match v with
  | Str s => negb (String.eqb s EmptyString)
  | _ => true
  end.

(** [x || d] where [x] is a property read and [d] a string literal. *)
Definition or_else (x : option value) (d : string) : value :=
  match x with
  | Some v => if truthy v then v else Str d
  | None => Str d
  end.

(** String conversion inside a template literal. *)
Definition to_string (v : value) : string :=
  match v with
  | Str s => s
  | Function n => "function " +:+ n +:+ "() { [native code] }"
  | ObjectPrototype => "[object Object]"
  end.

(** [`${x}`] for a possibly absent string ([undefined]). *)
Definition show_undefined (x : option string) : string :=
  default "undefined" x.

(** [`${x}`] for a string that may be [null]. *)
Definition show_null (x : option string) : string :=
  default "null" x.

(** Truthiness of a possibly absent string. *)
Definition truthy_str (x : option string) : bool :=
  match x with
  | Some s => negb (String.eqb s EmptyString)
  | None => false
  end.

Inductive exn :=
| Rejection (message : string)   (* a promise rejected by a provider SDK *)
| TypeError (message : string)   (* raised by the engine *)
| Error (message : string).      (* [throw new Error(...)] *)

Definition message (e : exn) : string :=
  match e with
  | Rejection m | TypeError m | Error m => m
  end.

Inductive result (A : Type) :=
| Ok (a : A)
| Throw (e : exn).
Arguments Ok {A} a.
Arguments Throw {A} e.

End JS.

(* ===================================================================== *)
(** ** Strings and the two regular expressions *)
(* ===================================================================== *)

Module Text.

Local Open Scope nat_scope.

Definition code (c : ascii) : nat := nat_of_ascii c.

(** [\s], and the characters removed by [trim]: tab, line feed,
    vertical tab, form feed, carriage return, space, no-break space. *)
Definition is_space (c : ascii) : bool :=
  let n := code c in
  ((9 <=? n) && (n <=? 13)) || (n =? 32) || (n =? 160).

(** Line terminators, which [.] does not match. *)
Definition is_line_terminator (c : ascii) : bool :=
  let n := code c in (n =? 10) || (n =? 13).

Definition is_upper (c : ascii) : bool :=
  let n := code c in (65 <=? n) && (n <=? 90).

Definition is_lower (c : ascii) : bool :=
  let n := code c in (97 <=? n) && (n <=? 122).

(** [[a-z]] under the [i] flag. *)
Definition is_letter (c : ascii) : bool := is_upper c || is_lower c.

Definition to_lower (c : ascii) : ascii :=
  if is_upper c then ascii_of_nat (code c + 32) else c.

Definition to_upper (c : ascii) : ascii :=
  if is_lower c then ascii_of_nat (code c - 32) else c.

Fixpoint toLowerCase (s : string) : string :=
  match s with
  | EmptyString => EmptyString
  | String c t => String (to_lower c) (toLowerCase t)
  end.

Fixpoint trimStart (s : string) : string :=
  match s with
  | String c t => if is_space c then trimStart t else s
  | EmptyString => EmptyString
  end.

(** Drops the trailing run of white space. *)
Fixpoint trimEnd (s : string) : string :=
  match s with
  | EmptyString => EmptyString
  | String c t =>
      match trimEnd t with
      | EmptyString => if is_space c then EmptyString else String c EmptyString
      | t' => String c t'
      end
  end.

Definition trim (s : string) : string := trimEnd (trimStart s).

(** A literal of the pattern matched at the head of [s] under the [i]
    flag; the result is the rest of the input. *)
Fixpoint literal_ci (p s : string) : option string :=
  match p with
  | EmptyString => Some s
  | String a p' =>
      match s with
      | String b s' =>
          if Ascii.eqb (to_upper a) (to_upper b) then literal_ci p' s' else None
      | EmptyString => None
      end
  end.

(** Greedy [\s*] followed by the continuation [k], with backtracking:
    the longest run is tried first, then shorter ones. *)
Fixpoint spaces_then {A} (k : string -> option A) (s : string) : option A :=
  match s with
  | String c t =>
      if is_space c then
        match spaces_then k t with
        | Some r => Some r
        | None => k s
        end
      else k s
  | EmptyString => k s
  end.

(** [([a-z]{2})] under the [i] flag. *)
Definition two_letters (s : string) : option string :=
  match s with
  | String a (String b _) =>
      if is_letter a && is_letter b then Some (String a (String b EmptyString))
      else None
  | _ => None
  end.

Fixpoint take_line (s : string) : string :=
  match s with
  | String c t => if is_line_terminator c then EmptyString else String c (take_line t)
  | EmptyString => EmptyString
  end.

(** [(.+)] at the end of a pattern: the longest non-empty run without a
    line terminator. *)
Definition dot_plus (s : string) : option string :=
  match take_line s with
  | EmptyString => None
  | l => Some l
  end.

(** [String.prototype.match] without the [g] flag: the leftmost start
    at which the pattern matches. *)
Fixpoint search {A} (at_head : string -> option A) (s : string) : option A :=
  match at_head s with
  | Some r => Some r
  | None =>
      match s with
      | String _ t => search at_head t
      | EmptyString => None
      end
  end.

(** Capture group 1 of [/LANGUAGE:\s*([a-z]{2})/i]. *)
Definition match_language (s : string) : option string :=
  search (fun u => literal_ci "LANGUAGE:" u ≫= spaces_then two_letters) s.

(** Capture group 1 of [/CORRECTED:\s*(.+)/i]. *)
Definition match_corrected (s : string) : option string :=
  search (fun u => literal_ci "CORRECTED:" u ≫= spaces_then dot_plus) s.

(** The double quote, for messages that embed one. *)
Definition dq : string := String (ascii_of_nat 34) EmptyString.

End Text.

(* ===================================================================== *)
(** ** Messages, provider requests and replies *)
(* ===================================================================== *)

(** Metadata attached to the turns stored by the phone channel. *)
Inductive metadata :=
| UserMeta (originalLanguage original : string)
| AssistantMeta (language : string).

(** A turn of a transcript and a message of a completion request. The
    content of an assistant turn is whatever the provider returned, which
    may be [null] ([None]). *)
Record turn := Turn {
  role : string;
  content : option string;
  meta : option metadata;
}.

#[global] Instance metadata_eq_dec : EqDecision metadata.
Proof. solve_decision. Defined.
#[global] Instance turn_eq_dec : EqDecision turn.
Proof. solve_decision. Defined.

Record chat_request := ChatRequest {
  req_model : string;
  req_messages : list turn;
  req_temperature : Q;
  req_max_tokens : nat;
}.

(** The part of a completion reply that the server reads:
    [completion.choices[0].message.content]. *)
Record completion_message := { message_content : option string }.
Record completion_choice := { choice_message : option completion_message }.
Record completion := { choices : list completion_choice }.

Record tts_request := TtsRequest {
  inputs : list (option string);
  target_language_code : JS.value;
  tts_speaker : string;
  tts_model : string;
  tts_pitch : Q;
  tts_pace : Q;
  tts_loudness : Q;
  enable_preprocessing : bool;
  speech_sample_rate : N;
  subscription_key : option string;
  timeout_ms : N;
}.

(** [sarvamResponse.data]; [audios] may be missing. *)
Record tts_response := { audios : option (list string) }.

(** What a request finds outside the process. A provider is a function of
    the request sent to it; its reply is a resolved or a rejected promise. *)
Record ambient := Ambient {
  openai_create : chat_request -> JS.result completion;
  axios_post : tts_request -> JS.result tts_response;
  uuidv4 : string;
  date_now : N;
  SARVAM_API_KEY : option string;
  PUBLIC_URL : option string;
}.

(* ===================================================================== *)
(** ** Configuration (config/data.js) *)
(* ===================================================================== *)

Record voice_config := {
  voice_model : string;
  voice_speaker : string;
  voice_language : string;
  voice_pitch : Q;
  voice_pace : Q;
  voice_loudness : Q;
  voice_description : string;
}.

Record openai_config := {
  openai_model : string;
  openai_temperature : Q;
  openai_maxTokens : nat;
}.

Record twilio_config := {
  twilio_language : string;
  twilio_speechTimeout : string;
}.

Record config := {
  systemPrompt : string;
  voiceConfig : voice_config;
  openAIConfig : openai_config;
  twilioConfig : twilio_config;
  (** [path.join(__dirname, 'public', 'audio')] *)
  audioDir : string;
}.

(* ===================================================================== *)
(** ** Process state and the handler monad *)
(* ===================================================================== *)

Inductive level := info | warn | error.

Record log_entry := Log {
  log_level : level;
  log_message : string;
  log_meta : list (string * string);
}.

Record world := World {
  (** [conversationHistory]: call identifier to transcript *)
  conversationHistory : gmap string (list turn);
  (** [audioCleanupQueue]: file path to the identifier of its timer *)
  audioCleanupQueue : gmap string nat;
  (** pending one-shot timers: identifier to (file path, delay in ms) *)
  timers : gmap nat (string * N);
  (** identifier of the next timer *)
  timer_seq : nat;
  (** files present on disk, with their contents *)
  files : gmap string string;
  (** what the logger received, oldest first *)
  logs : list log_entry;
  (** the completion requests sent so far, oldest first; a record of the
      calls made, which the server never reads *)
  sent : list chat_request;
}.

Definition M (A : Type) : Type := world -> JS.result A * world.

Definition ret {A} (a : A) : M A := fun w => (JS.Ok a, w).

Definition throw {A} (e : JS.exn) : M A := fun w => (JS.Throw e, w).

Definition bind {A B} (m : M A) (k : A -> M B) : M B :=
  fun w =>
    match m w with
    | (JS.Ok a, w') => k a w'
    | (JS.Throw e, w') => (JS.Throw e, w')
    end.

(** [try { body } catch (e) { handler e }]: effects of the body made
    before the throw are kept. *)
Definition try_catch {A} (body : M A) (handler : JS.exn -> M A) : M A :=
  fun w =>
    match body w with
    | (JS.Ok a, w') => (JS.Ok a, w')
    | (JS.Throw e, w') => handler e w'
    end.

(** [await p] for a promise already settled to [r]. *)
Definition await {A} (r : JS.result A) : M A := fun w => (r, w).

Definition modify (f : world -> world) : M unit := fun w => (JS.Ok tt, f w).

Definition gets {A} (f : world -> A) : M A := fun w => (JS.Ok (f w), w).

Notation "'let*' x ':=' m 'in' k" := (bind m (fun x => k))
  (at level 10, x name, m at level 200, k at level 200).
Notation "m ';;;' k" := (bind m (fun _ => k))
  (at level 100, k at level 200, right associativity).

Definition set_history (h : gmap string (list turn)) (w : world) : world :=
  World h (audioCleanupQueue w) (timers w) (timer_seq w) (files w) (logs w) (sent w).

Definition set_queue (q : gmap string nat) (w : world) : world :=
  World (conversationHistory w) q (timers w) (timer_seq w) (files w) (logs w) (sent w).

Definition set_timers (t : gmap nat (string * N)) (n : nat) (w : world) : world :=
  World (conversationHistory w) (audioCleanupQueue w) t n (files w) (logs w) (sent w).

Definition set_files (f : gmap string string) (w : world) : world :=
  World (conversationHistory w) (audioCleanupQueue w) (timers w) (timer_seq w) f (logs w) (sent w).

Definition set_logs (l : list log_entry) (w : world) : world :=
  World (conversationHistory w) (audioCleanupQueue w) (timers w) (timer_seq w) (files w) l (sent w).

Definition set_sent (r : list chat_request) (w : world) : world :=
  World (conversationHistory w) (audioCleanupQueue w) (timers w) (timer_seq w) (files w)
    (logs w) r.

(** [logger.info], [logger.warn], [logger.error]. *)
Definition log (l : level) (msg : string) (m : list (string * string)) : M unit :=
  modify (fun w => set_logs (logs w ++ [Log l msg m]) w).

(** The file system calls of [fs]. *)
Definition existsSync (p : string) : M bool :=
  gets (fun w => bool_decide (is_Some (files w !! p))).

(** [fs.unlinkSync] throws when there is no such file. *)
Definition unlinkSync (p : string) : M unit :=
  fun w =>
    match files w !! p with
    | Some _ => (JS.Ok tt, set_files (delete p (files w)) w)
    | None =>
        (JS.Throw (JS.Error ("ENOENT: no such file or directory, unlink '" +:+ p +:+ "'")), w)
    end.

Definition writeFileSync (p data : string) : M unit :=
  modify (fun w => set_files (<[p := data]> (files w)) w).

Definition empty_world : world := World ∅ ∅ ∅ 0 ∅ [] [].

(* ===================================================================== *)
(** ** Language detection and correction *)
(* ===================================================================== *)

Definition languageMapping : gmap string string :=
  list_to_map
    [ ("en", "en-IN"); ("hi", "hi-IN"); ("ta", "ta-IN"); ("te", "te-IN");
      ("ml", "ml-IN"); ("kn", "kn-IN"); ("mr", "mr-IN"); ("bn", "bn-IN");
      ("gu", "gu-IN"); ("pa", "pa-IN") ].

(** The [languageNames] literal of both turn handlers. *)
Definition languageNames : gmap string string :=
  list_to_map
    [ ("en", "English"); ("hi", "Hindi"); ("ta", "Tamil"); ("te", "Telugu");
      ("ml", "Malayalam"); ("kn", "Kannada"); ("mr", "Marathi"); ("bn", "Bengali");
      ("gu", "Gujarati"); ("pa", "Punjabi") ].

(** The system message of the correction request. *)
Definition correctionPrompt : string :=
  "You are a Course Recommendation Expert for Skillora Design Academy. Your purpose is to analyze a user's informal description of their creative interests or career goals and map them to a specific course.

Your tasks:
1. Analyze the user's query to identify their core creative interest (e.g., drawing, websites, video editing, decorating, fashion).
2. Identify the single most relevant course at Skillora that matches this interest.
3. Provide a brief, one-sentence reason for your recommendation.

Respond in this EXACT format:
INTEREST_DETECTED: [A brief summary of the user's interest]
RECOMMENDED_COURSE: [The name of the most suitable course]
REASON: [A short sentence explaining why this course is a match]

---
Examples:

Input: " +:+ Text.dq +:+ "I love to draw characters and want to make them move like in cartoons" +:+ Text.dq +:+ "
Output:
INTEREST_DETECTED: Drawing and making characters move.
RECOMMENDED_COURSE: Animation & VFX
REASON: This course focuses on bringing characters to life through animation principles and visual effects.

Input: " +:+ Text.dq +:+ "mujhe apps aur websites ko easy to use banana hai" +:+ Text.dq +:+ "
Output:
INTEREST_DETECTED: Making apps and websites easy to use.
RECOMMENDED_COURSE: UI/UX Design
REASON: This course teaches how to design user-friendly interfaces and experiences for digital products.

Input: " +:+ Text.dq +:+ "I want to learn how to edit videos for youtube and add special effects" +:+ Text.dq +:+ "
Output:
INTEREST_DETECTED: Editing videos and adding special effects for online platforms.
RECOMMENDED_COURSE: VFX & Video Editing
REASON: This course covers professional video editing techniques and visual effects used in modern online content.".

Definition correction_request (text : string) : chat_request :=
  ChatRequest "gpt-4o-mini"
    [ Turn "system" (Some correctionPrompt) None;
      Turn "user" (Some text) None ]
    0 150.

(** [await openai.chat.completions.create(request)] *)
Definition chat_completions_create (x : ambient) (request : chat_request) : M completion :=
  modify (fun w => set_sent (sent w ++ [request]) w) ;;;
  await (openai_create x request).

Record correction := Correction {
  language : string;
  correctedText : string;
}.

(** [completion.choices[0].message.content] *)
Definition first_content (c : completion) : M (option string) :=
  match choices c with
  | [] => throw (JS.TypeError "Cannot read properties of undefined (reading 'message')")
  | ch :: _ =>
      match choice_message ch with
      | None => throw (JS.TypeError "Cannot read properties of undefined (reading 'content')")
      | Some m => ret (message_content m)
      end
  end.

(** [content.trim()], which throws on [null]. *)
Definition content_trim (c : option string) : M string :=
  match c with
  | Some s => ret (Text.trim s)
  | None => throw (JS.TypeError "Cannot read properties of null (reading 'trim')")
  end.

Definition detectLanguageAndCorrect (x : ambient) (text : string) : M correction :=
  try_catch
    (let* completion := chat_completions_create x (correction_request text) in
     let* content := first_content completion in
     let* response := content_trim content in
     let langMatch := Text.match_language response in
     let correctedMatch := Text.match_corrected response in
     let detectedLang :=
       match langMatch with Some c => Text.toLowerCase c | None => "en" end in
     let correctedText :=
       match correctedMatch with Some c => Text.trim c | None => text end in
     log info "Language detection"
       [("original", text); ("detected", detectedLang); ("corrected", correctedText)] ;;;
     ret (Correction detectedLang correctedText))
    (fun e =>
       log error "Language detection error:" [("error", JS.message e)] ;;;
       ret (Correction "en" text)).

Definition getSarvamLanguageCode (googleLangCode : string) : JS.value :=
  JS.or_else (JS.get languageMapping googleLangCode) "en-IN".

(* ===================================================================== *)
(** ** Responses *)
(* ===================================================================== *)

(** What a [<Gather>] contains. *)
Inductive noun :=
| Say (text : option string)
| Play (url : string).

Record gather_attrs := GatherAttrs {
  gather_input : string;
  gather_action : string;
  gather_speechTimeout : string;
  gather_language : string;
  gather_enhanced : bool;
}.

(** The verbs of a [VoiceResponse], in document order. *)
Inductive verb :=
| Gather (a : gather_attrs) (body : list noun)
| SayVerb (text : string)
| Hangup.

(** [gather.say(text)]: what the call adds to the [<Gather>]. For a [null]
    text the builder adds no [<Say>], and the [<Gather>] stays as it was. *)
Definition gather_say (text : option string) : list noun :=
  match text with
  | Some s => [Say (Some s)]
  | None => []
  end.

Inductive json_body :=
| ChatReply (detectedLanguage : string) (response : option string) (audioUrl : option string)
| ErrorBody (error details : string).

Inductive response :=
| Xml (twiml : list verb)
| Json (status : nat) (body : json_body)
| SendStatus (code : nat).

(* ===================================================================== *)
(** ** The server *)
(* ===================================================================== *)

Section Server.

Variable cfg : config.

(** [Buffer.from(s, 'base64')], a function of the Node runtime. *)
Variable Buffer_from_base64 : string -> string.

(** *** Audio file management *)

(** The callback that [scheduleAudioCleanup] hands to [setTimeout]. *)
Definition cleanup_callback (filePath : string) : M unit :=
  try_catch
    (let* present := existsSync filePath in
     (if present : bool then
        unlinkSync filePath ;;;
        log info ("Cleaned up audio file: " +:+ filePath) []
      else ret tt) ;;;
     modify (fun w => set_queue (delete filePath (audioCleanupQueue w)) w))
    (fun e =>
       log error ("Error cleaning up audio file " +:+ filePath +:+ ":")
         [("error", JS.message e)]).

Definition scheduleAudioCleanup (filePath : string) (delayMs : N) : M unit :=
  modify (fun w =>
    let timeoutId := timer_seq w in
    set_queue (<[filePath := timeoutId]> (audioCleanupQueue w))
      (set_timers (<[timeoutId := (filePath, delayMs)]> (timers w)) (S timeoutId) w)).

(** A pending timer fires: it is one-shot, and runs its callback. *)
Definition fire_timer (timeoutId : nat) : M unit :=
  let* pending := gets (fun w => timers w !! timeoutId) in
  match pending with
  | Some (filePath, _) =>
      modify (fun w => set_timers (delete timeoutId (timers w)) (timer_seq w) w) ;;;
      cleanup_callback filePath
  | None => ret tt
  end.

(** *** Shared pieces of the two turn handlers *)

Definition sarvam_configured (x : ambient) : bool :=
  match SARVAM_API_KEY x with
  | Some k => negb (String.eqb k EmptyString)
              && negb (String.eqb k "your_sarvam_api_key_here")
  | None => false
  end.

Definition languageName_of (detectedLanguage : string) : string :=
  JS.to_string (JS.or_else (JS.get languageNames detectedLanguage) "English").

Definition sarvam_request (x : ambient) (text : option string) (code : JS.value)
  : tts_request :=
  TtsRequest [text] code
    (voice_speaker (voiceConfig cfg)) (voice_model (voiceConfig cfg))
    (voice_pitch (voiceConfig cfg)) (voice_pace (voiceConfig cfg))
    (voice_loudness (voiceConfig cfg))
    true 22050%N (SARVAM_API_KEY x) 30000%N.

(** [sarvamResponse.data.audios[0]] *)
Definition first_audio (r : tts_response) : M (option string) :=
  match audios r with
  | None => throw (JS.TypeError "Cannot read properties of undefined (reading '0')")
  | Some l => ret (head l)
  end.

Definition path_join (dir name : string) : string := dir +:+ "/" +:+ name.

Definition gather_speech (callSid language : string) : gather_attrs :=
  GatherAttrs "speech" ("/handle-speech?callSid=" +:+ callSid)
    (twilio_speechTimeout (twilioConfig cfg)) language true.

(** *** Phone channel *)

Definition twilio_voice (callSid : string) : M response :=
  modify (fun w =>
    set_history
      (<[callSid := [Turn "system" (Some (systemPrompt cfg)) None]]>
         (conversationHistory w)) w) ;;;
  log info ("New call started: " +:+ callSid) [] ;;;
  ret (Xml
    [ Gather (gather_speech callSid (twilio_language (twilioConfig cfg)))
        [Say (Some "This is the test call for you, You can speak now the assistant will respond accordingly.")];
      Hangup ]).

Definition phone_system_content (languageName : string) : string :=
  systemPrompt cfg +:+ "

CRITICAL LANGUAGE INSTRUCTION:
The user is speaking in " +:+ languageName +:+ ". You MUST respond ONLY in " +:+ languageName +:+ ".
- Write your ENTIRE response in " +:+ languageName +:+ " language
- For Indian languages, you can use Roman script (transliteration) or native script
- Do NOT use English at all unless the user is speaking English
- Do NOT mix languages
- Keep responses concise (under 30 words) for phone calls

This is MANDATORY. Respond in " +:+ languageName +:+ " ONLY.".

Definition messagesWithLanguage (languageName : string) (history : list turn)
    (correctedMessage : string) : list turn :=
  Turn "system" (Some (phone_system_content languageName)) None
    :: drop 1 history
    ++ [Turn "user" (Some correctedMessage) None].

Definition turn_request (messages : list turn) : chat_request :=
  ChatRequest (openai_model (openAIConfig cfg)) messages
    (openai_temperature (openAIConfig cfg)) (openai_maxTokens (openAIConfig cfg)).

(** [history.push(m)], where [history] is the array that the map holds
    for [callSid]. *)
Definition history_push (callSid : string) (m : turn) : M unit :=
  modify (fun w =>
    set_history (alter (fun h => h ++ [m]) callSid (conversationHistory w)) w).

(** The [try] block of [handleSarvamAIResponse]. *)
Definition sarvam_playback (x : ambient) (twiml : list verb)
    (text : option string) (callSid detectedLanguage : string) : M (list verb) :=
  let sarvamLanguageCode := getSarvamLanguageCode detectedLanguage in
  log info ("[" +:+ callSid +:+ "] Sarvam language code: "
            +:+ JS.to_string sarvamLanguageCode) [] ;;;
  let* sarvamResponse := await (axios_post x (sarvam_request x text sarvamLanguageCode)) in
  log info ("[" +:+ callSid +:+ "] Sarvam AI response received") [] ;;;
  let* audioBase64 := first_audio sarvamResponse in
  if JS.truthy_str audioBase64 then
    let audioBuffer := Buffer_from_base64 (default EmptyString audioBase64) in
    let audioFileName := uuidv4 x +:+ ".wav" in
    let audioFilePath := path_join (audioDir cfg) audioFileName in
    writeFileSync audioFilePath audioBuffer ;;;
    let audioUrl := JS.show_undefined (PUBLIC_URL x) +:+ "/audio/" +:+ audioFileName in
    log info ("[" +:+ callSid +:+ "] Audio saved: " +:+ audioFileName
              +:+ " (" +:+ pretty (String.length audioBuffer) +:+ " bytes)") [] ;;;
    scheduleAudioCleanup audioFilePath 30000%N ;;;
    ret (twiml ++ [Gather (gather_speech callSid (voice_language (voiceConfig cfg)))
                     [Play audioUrl]])
  else throw (JS.Error "No audio data in Sarvam response").

Definition handleSarvamAIResponse (x : ambient) (twiml : list verb)
    (text : option string) (callSid detectedLanguage : string) : M (list verb) :=
  try_catch
    (sarvam_playback x twiml text callSid detectedLanguage)
    (fun e =>
       log error "[Sarvam AI Error]:" [("error", JS.message e)] ;;;
       ret (twiml ++ [Gather (gather_speech callSid (twilio_language (twilioConfig cfg)))
                        (gather_say text)])).

(** The end of the [try] block of [/handle-speech]: the reply is
    rendered by the synthesis provider when its key is configured, and by
    the telephony provider otherwise. *)
Definition voice_reply (x : ambient) (callSid : string) (gptResponse : option string)
    (detectedLanguage languageName : string) : M (list verb) :=
  if sarvam_configured x then
    log info ("[" +:+ callSid +:+ "] Using Sarvam AI for voice generation in "
              +:+ languageName +:+ "...") [] ;;;
    handleSarvamAIResponse x [] gptResponse callSid detectedLanguage
  else
    log info ("[" +:+ callSid +:+ "] Using Twilio TTS...") [] ;;;
    ret [Gather (gather_speech callSid (twilio_language (twilioConfig cfg)))
           (gather_say gptResponse)].

(** The branch of [/handle-speech] taken without speech or without a
    known call. *)
Definition no_speech (callSid : string) (userSpeech : option string) : M (list verb) :=
  log warn ("[" +:+ callSid +:+ "] No speech detected or invalid call. Speech: "
            +:+ Text.dq +:+ JS.show_undefined userSpeech +:+ Text.dq) [] ;;;
  ret [ Gather (gather_speech callSid (twilio_language (twilioConfig cfg)))
          [Say (Some "I did not catch that. Please speak clearly after the tone.")];
        SayVerb "I could not hear you. Please call back. Goodbye.";
        Hangup ].

(** The [try] block of [/handle-speech]. *)
Definition conversation_turn (x : ambient) (callSid speech : string) : M (list verb) :=
  log info ("[" +:+ callSid +:+ "] Detecting language...") [] ;;;
  let* correction := detectLanguageAndCorrect x speech in
  let detectedLanguage := language correction in
  let correctedMessage := correctedText correction in
  log info ("[" +:+ callSid +:+ "] Language detected: " +:+ detectedLanguage
            +:+ ", Corrected: " +:+ Text.dq +:+ correctedMessage +:+ Text.dq) [] ;;;
  let languageName := languageName_of detectedLanguage in
  let* stored := gets (fun w => conversationHistory w !! callSid) in
  let* history :=
    match stored with
    | Some h => ret h
    | None => throw (JS.TypeError "Cannot read properties of undefined (reading 'slice')")
    end in
  let messages := messagesWithLanguage languageName history correctedMessage in
  log info ("[" +:+ callSid +:+ "] Requesting GPT response in " +:+ languageName +:+ "...") [] ;;;
  let* completion := chat_completions_create x (turn_request messages) in
  let* gptResponse := first_content completion in
  log info ("[" +:+ callSid +:+ "] GPT says (in " +:+ languageName +:+ "): "
            +:+ Text.dq +:+ JS.show_null gptResponse +:+ Text.dq) [] ;;;
  history_push callSid
    (Turn "user" (Some correctedMessage) (Some (UserMeta detectedLanguage speech))) ;;;
  history_push callSid
    (Turn "assistant" gptResponse (Some (AssistantMeta detectedLanguage))) ;;;
  voice_reply x callSid gptResponse detectedLanguage languageName.

Definition retry_prompt (callSid : string) : list verb :=
  [ Gather (gather_speech callSid (twilio_language (twilioConfig cfg)))
      [Say (Some "I seem to be having some trouble. Please try speaking again.")];
    SayVerb "Thank you for calling. Goodbye.";
    Hangup ].

(** The condition [userSpeech && callSid && conversationHistory.has(callSid)]. *)
Definition speech_accepted (userSpeech : option string) (callSid : string) (w : world)
  : bool :=
  JS.truthy_str userSpeech
  && negb (String.eqb callSid EmptyString)
  && bool_decide (is_Some (conversationHistory w !! callSid)).

Definition handle_speech (x : ambient) (callSid : string)
    (userSpeech confidence : option string) : M response :=
  log info ("[" +:+ callSid +:+ "] Received speech result: " +:+ Text.dq
            +:+ JS.show_undefined userSpeech +:+ Text.dq +:+ " (confidence: "
            +:+ JS.show_undefined confidence +:+ ")") [] ;;;
  let* accepted := gets (speech_accepted userSpeech callSid) in
  let* twiml :=
    match userSpeech, accepted with
    | Some speech, true =>
        log info ("[" +:+ callSid +:+ "] User said: " +:+ Text.dq +:+ speech +:+ Text.dq) [] ;;;
        try_catch
          (conversation_turn x callSid speech)
          (fun e =>
             log error ("[" +:+ callSid +:+ "] Error in conversation loop:")
               [("error", JS.message e)] ;;;
             ret (retry_prompt callSid))
    | _, _ => no_speech callSid userSpeech
    end in
  ret (Xml twiml).

Definition terminal_status (callStatus : string) : bool :=
  String.eqb callStatus "completed" || String.eqb callStatus "failed"
  || String.eqb callStatus "busy" || String.eqb callStatus "no-answer".

Definition call_status (callSid callStatus : string) : M response :=
  log info ("[" +:+ callSid +:+ "] Call status: " +:+ callStatus) [] ;;;
  (if terminal_status callStatus then
     let* known := gets (fun w => bool_decide (is_Some (conversationHistory w !! callSid))) in
     if known : bool then
       modify (fun w => set_history (delete callSid (conversationHistory w)) w) ;;;
       log info ("[" +:+ callSid +:+ "] Conversation history cleaned up") []
     else ret tt
   else ret tt) ;;;
  ret (SendStatus 200).

(** *** Web channel *)

Definition greeting_sentinel : string := "__GREETING__".

Definition canned_greeting : string :=
  "Hello! I am your assistant at the Skillora Design Academy. How can I help you today?".

Definition web_system_content (languageName : string) : string :=
  systemPrompt cfg +:+ "

CRITICAL LANGUAGE INSTRUCTION:
The user is speaking in " +:+ languageName +:+ ". You MUST respond ONLY in " +:+ languageName +:+ ".
- Write your ENTIRE response in " +:+ languageName +:+ " language using the appropriate script (Devanagari for Hindi/Marathi, Tamil script for Tamil, etc.)
- Do NOT use English at all
- Do NOT mix languages
- If you don't know how to say something in " +:+ languageName +:+ ", still try your best to use " +:+ languageName +:+ "

This is MANDATORY. Respond in " +:+ languageName +:+ " ONLY.".

(** The array literal with [...clientHistory]; spreading a missing
    history throws. *)
Definition chat_messages (languageName : string) (clientHistory : option (list turn))
    (correctedMessage : string) : M (list turn) :=
  match clientHistory with
  | Some h =>
      ret (Turn "system" (Some (web_system_content languageName)) None
             :: h ++ [Turn "user" (Some correctedMessage) None])
  | None => throw (JS.TypeError "clientHistory is not iterable")
  end.

(** [req.headers['x-session-id'] || `web_${Date.now()}`] *)
Definition session_id (x : ambient) (sessionHeader : option string) : string :=
  match sessionHeader with
  | Some h => if String.eqb h EmptyString then "web_" +:+ pretty (date_now x) else h
  | None => "web_" +:+ pretty (date_now x)
  end.

(** The inner [try] block of [/chat] and its [catch]; the result is
    [audioUrl]. *)
Definition chat_synthesis (x : ambient) (sessionId : string) (gptResponse : option string)
    (detectedLanguage : string) : M (option string) :=
  try_catch
    (let* sarvamResponse :=
       await (axios_post x
                (sarvam_request x gptResponse (getSarvamLanguageCode detectedLanguage))) in
     let* audioBase64 := first_audio sarvamResponse in
     if JS.truthy_str audioBase64 then
       let audioBuffer := Buffer_from_base64 (default EmptyString audioBase64) in
       let audioFileName := uuidv4 x +:+ ".wav" in
       let audioFilePath := path_join (audioDir cfg) audioFileName in
       writeFileSync audioFilePath audioBuffer ;;;
       log info ("[" +:+ sessionId +:+ "] Audio saved: " +:+ audioFileName) [] ;;;
       scheduleAudioCleanup audioFilePath 60000%N ;;;
       ret (Some ("/audio/" +:+ audioFileName))
     else ret None)
    (fun e =>
       log error "[Sarvam AI Error for web chat]:" [("error", JS.message e)] ;;;
       ret None).

(** The part of [/chat] that computes [gptResponse] and
    [detectedLanguage]. *)
Definition chat_reply (x : ambient) (sessionId message : string)
    (clientHistory : option (list turn)) : M (option string * string) :=
  if String.eqb message greeting_sentinel then
    log info ("[" +:+ sessionId +:+ "] Sending greeting") [] ;;;
    ret (Some canned_greeting, "en")
  else
    let* correction := detectLanguageAndCorrect x message in
    let detectedLanguage := language correction in
    let correctedMessage := correctedText correction in
    let languageName := languageName_of detectedLanguage in
    let* messages := chat_messages languageName clientHistory correctedMessage in
    let* completion := chat_completions_create x (turn_request messages) in
    let* gptResponse := first_content completion in
    log info ("[" +:+ sessionId +:+ "] GPT response in " +:+ languageName +:+ ": "
              +:+ Text.dq +:+ JS.show_null gptResponse +:+ Text.dq) [] ;;;
    ret (gptResponse, detectedLanguage).

Definition chat (x : ambient) (sessionHeader : option string) (message : string)
    (clientHistory : option (list turn)) : M response :=
  let sessionId := session_id x sessionHeader in
  log info ("[" +:+ sessionId +:+ "] Web chat message: "
            +:+ Text.dq +:+ message +:+ Text.dq) [] ;;;
  try_catch
    (let* reply := chat_reply x sessionId message clientHistory in
     let gptResponse := fst reply in
     let detectedLanguage := snd reply in
     let* audioUrl :=
       if sarvam_configured x
       then chat_synthesis x sessionId gptResponse detectedLanguage
       else ret None in
     ret (Json 200 (ChatReply detectedLanguage gptResponse audioUrl)))
    (fun e =>
       log error "[Web Chat Error]:" [("error", JS.message e)] ;;;
       ret (Json 500 (ErrorBody "Failed to process message" (JS.message e)))).

(** *** The server as a transition system *)

Inductive event :=
| CallStart (callSid : string)
| SpeechResult (x : ambient) (callSid : string) (userSpeech confidence : option string)
| CallStatus (callSid callStatus : string)
| WebChat (x : ambient) (sessionHeader : option string) (message : string)
    (clientHistory : option (list turn))
| TimerFired (timeoutId : nat).

Definition handle (ev : event) : M unit :=
  match ev with
  | CallStart callSid => twilio_voice callSid ;;; ret tt
  | SpeechResult x callSid userSpeech confidence =>
      handle_speech x callSid userSpeech confidence ;;; ret tt
  | CallStatus callSid callStatus => call_status callSid callStatus ;;; ret tt
  | WebChat x sessionHeader message clientHistory =>
      chat x sessionHeader message clientHistory ;;; ret tt
  | TimerFired timeoutId => fire_timer timeoutId
  end.

(** The states the process can be in after any sequence of events. *)
Inductive reachable : world -> Prop :=
| reachable_start : reachable empty_world
| reachable_step w ev : reachable w -> reachable (snd (handle ev w)).

(** No two neighbouring turns have the same role. *)
Fixpoint alternating (h : list turn) : bool :=
  match h with
  | a :: (b :: _) as t => negb (String.eqb (role a) (role b)) && alternating t
  | _ => true
  end.

End Server.

(* ===================================================================== *)
(** ** The rest of the server: shutdown, translation, transcription *)
(* ===================================================================== *)

(** [clearTimeout(timeoutId)] *)
Definition clearTimeout (timeoutId : nat) : M unit :=
  modify (fun w => set_timers (delete timeoutId (timers w)) (timer_seq w) w).

(** The callback that [cleanupAllAudioFiles] hands to
    [audioCleanupQueue.forEach], at the entry [(filePath, timeoutId)]. *)
Definition force_cleanup (entry : string * nat) : M unit :=
  let filePath := fst entry in
  let timeoutId := snd entry in
  clearTimeout timeoutId ;;;
  try_catch
    (let* present := existsSync filePath in
     if present : bool then
       unlinkSync filePath ;;;
       log info ("Force cleaned up: " +:+ filePath) []
     else ret tt)
    (fun e =>
       log error ("Error force cleaning " +:+ filePath +:+ ":") [("error", JS.message e)]).

Fixpoint forEach {A} (callback : A -> M unit) (entries : list A) : M unit :=
  match entries with
  | [] => ret tt
  | entry :: rest => callback entry ;;; forEach callback rest
  end.

(** [cleanupAllAudioFiles()]. A JavaScript [Map] is visited in the order
    of insertion, which the [gmap] does not record: [entries] is the
    queue listed in that order. *)
Definition cleanupAllAudioFiles (entries : list (string * nat)) : M unit :=
  forEach force_cleanup entries ;;;
  modify (fun w => set_queue ∅ w).

(** What the translation and transcription helpers find outside the
    process. *)
Record transcription_request := TranscriptionRequest {
  (** the bytes that [fs.createReadStream] delivers *)
  transcription_file : string;
  transcription_model : string;
  transcription_response_format : string;
  transcription_language_hint : option string;
}.

Record transcription := Transcription {
  transcription_text : string;
  transcription_language : option string;
  transcription_duration : Q;
}.

Record outside := Outside {
  (** [translate.translate(text, target)]: the array it resolves to, of
      which the first element is read *)
  translate_translate : string -> string -> JS.result (list string);
  GOOGLE_TRANSLATE_API_KEY : option string;
  (** [openai.audio.transcriptions.create] *)
  transcriptions_create : transcription_request -> JS.result transcription;
}.

(** The negation of the key test shared by the two translation helpers:
    the key is set, not blank, and not the placeholder. *)
Definition translate_configured (o : outside) : bool :=
  match GOOGLE_TRANSLATE_API_KEY o with
  | Some k =>
      negb (String.eqb k EmptyString)
      && negb (String.eqb (Text.trim k) EmptyString)
      && negb (String.eqb k "your_google_translate_api_key_here")
  | None => false
  end.

(** The result is a string, or [undefined] ([None]) when the provider
    resolves to an empty array. *)
Definition translateToEnglish (o : outside) (text sourceLanguage : string)
  : M (option string) :=
  try_catch
    (if String.eqb sourceLanguage "en" then ret (Some text)
     else if negb (translate_configured o) then ret (Some text)
     else
       let* translated := await (translate_translate o text "en") in
       let translation := head translated in
       log info "Translation to English"
         [("original", text); ("translated", JS.show_undefined translation)] ;;;
       ret translation)
    (fun e =>
       log error "Translation to English error:" [("error", JS.message e)] ;;;
       ret (Some text)).

Definition translateFromEnglish (o : outside) (text targetLanguage : string)
  : M (option string) :=
  try_catch
    (if String.eqb targetLanguage "en" then ret (Some text)
     else if negb (translate_configured o) then ret (Some text)
     else
       let* translated := await (translate_translate o text targetLanguage) in
       let translation := head translated in
       log info "Translation from English"
         [("text", text); ("targetLanguage", targetLanguage);
          ("translation", JS.show_undefined translation)] ;;;
       ret translation)
    (fun e =>
       log error ("Translation to " +:+ targetLanguage +:+ " error:")
         [("error", JS.message e)] ;;;
       ret (Some text)).

(** The argument of [transcribeWithWhisper]: a [Buffer], a path, or
    anything else. *)
Inductive audio_input :=
| AudioBuffer (data : string)
| AudioPath (path : string)
| AudioOther.

Record transcript := Transcript {
  transcript_text : string;
  transcript_language : string;
  transcript_duration : Q;
}.

(** An uploaded file as the upload middleware leaves it in [req.file]. *)
Record upload := Upload {
  upload_originalname : string;
  upload_size : nat;
  upload_path : string;
}.

Inductive transcribe_response :=
| TranscribeOk (text language : string) (duration : Q)
| TranscribeError (status : nat) (error : string) (details : option string).

Section Transcription.

(** [path.join(__dirname, 'temp')] *)
Variable tempDir : string.

(** The [try] block of [transcribeWithWhisper]. [opened] is the pair of
    [tempFilePath] ([None] for [null]) and the path that
    [fs.createReadStream] opens. Of the fields logged on completion the
    duration, a number, is left out. *)
Definition whisper_attempt (x : ambient) (o : outside) (audioInput : audio_input)
    (language : option string) : M transcript :=
  let* opened :=
    match audioInput with
    | AudioBuffer data =>
        let tempFilePath := path_join tempDir ("whisper_" +:+ uuidv4 x +:+ ".wav") in
        writeFileSync tempFilePath data ;;;
        ret (Some tempFilePath, tempFilePath)
    | AudioPath path =>
        let* present := existsSync path in
        if present : bool then ret (None, path)
        else throw (JS.Error ("Audio file not found: " +:+ path))
    | AudioOther => throw (JS.Error "Invalid audio input type")
    end in
  let tempFilePath : option string := fst opened in
  let* audioFile := gets (fun w => default EmptyString (files w !! snd opened)) in
  let transcriptionParams :=
    TranscriptionRequest audioFile "whisper-1" "verbose_json"
      (if JS.truthy_str language then language else None) in
  log info "Starting Whisper transcription" [("language", JS.show_null language)] ;;;
  let* transcription := await (transcriptions_create o transcriptionParams) in
  (match tempFilePath with
   | Some temp =>
       let* present := existsSync temp in
       if present : bool then unlinkSync temp else ret tt
   | None => ret tt
   end) ;;;
  log info "Whisper transcription completed"
    [("text", transcription_text transcription);
     ("detectedLanguage", JS.show_undefined (transcription_language transcription))] ;;;
  ret (Transcript (transcription_text transcription)
         (if JS.truthy_str (transcription_language transcription)
          then default EmptyString (transcription_language transcription)
          else "en")
         (transcription_duration transcription)).

Definition transcribeWithWhisper (x : ambient) (o : outside) (audioInput : audio_input)
    (language : option string) : M transcript :=
  try_catch
    (whisper_attempt x o audioInput language)
    (fun e =>
       log error "Whisper transcription error:" [("error", JS.message e)] ;;;
       throw (JS.Error ("Whisper transcription failed: " +:+ JS.message e))).

(** [if (fs.existsSync(req.file.path)) fs.unlinkSync(req.file.path)] *)
Definition remove_upload (path : string) : M unit :=
  let* present := existsSync path in
  if present : bool then unlinkSync path else ret tt.

(** The handler of [/transcribe], after the upload middleware; [hint] is
    [req.body.language]. *)
Definition transcribe (x : ambient) (o : outside) (file : option upload)
    (hint sessionHeader : option string) : M transcribe_response :=
  try_catch
    (match file with
     | None => ret (TranscribeError 400 "No audio file provided" None)
     | Some f =>
         let language := if JS.truthy_str hint then hint else None in
         let sessionId :=
           if JS.truthy_str sessionHeader then default EmptyString sessionHeader
           else "transcribe_" +:+ pretty (date_now x) in
         log info ("[" +:+ sessionId +:+ "] Whisper transcription request")
           [("filename", upload_originalname f); ("size", pretty (upload_size f));
            ("language", JS.show_null language)] ;;;
         let* transcription :=
           transcribeWithWhisper x o (AudioPath (upload_path f)) language in
         remove_upload (upload_path f) ;;;
         ret (TranscribeOk (transcript_text transcription)
                (transcript_language transcription) (transcript_duration transcription))
     end)
    (fun e =>
       log error "Transcription endpoint error:" [("error", JS.message e)] ;;;
       (match file with
        | Some f => remove_upload (upload_path f)
        | None => ret tt
        end) ;;;
       ret (TranscribeError 500 "Transcription failed" (Some (JS.message e)))).

End Transcription.

(* ===================================================================== *)
(** ** Reading aids for the statements *)
(* ===================================================================== *)

(** What [completion.choices[0].message.content] evaluates to, when the
    promise resolved and the reply has a first choice with a message; the
    content itself may be [null]. *)
Definition reply_content (reply : JS.result completion) : option (option string) :=
  match reply with
  | JS.Ok c =>
      match choices c with
      | ch :: _ => message_content <$> choice_message ch
      | [] => None
      end
  | JS.Throw _ => None
  end.

(** The content of a completion reply, when it is a string. *)
Definition reply_text (reply : JS.result completion) : option string :=
  mjoin (reply_content reply).

(** The audio payload of a synthesis reply: a non-empty
    [data.audios[0]] of a resolved promise. *)
Definition audio_payload (reply : JS.result tts_response) : option string :=
  match reply with
  | JS.Ok r =>
      match audios r with
      | Some (a :: _) => if String.eqb a EmptyString then None else Some a
      | _ => None
      end
  | JS.Throw _ => None
  end.


(** The result of the correction as a function of the provider's reply. *)
Definition correction_of (reply : JS.result completion) (text : string) : correction :=
  match reply_text reply with
  | Some s =>
      let response := Text.trim s in
      Correction
        match Text.match_language response with
        | Some c => Text.toLowerCase c
        | None => "en"
        end
        match Text.match_corrected response with
        | Some c => Text.trim c
        | None => text
        end
  | None => Correction "en" text
  end.

(** [w'] differs from [w] at most by log entries and by the completion
    requests [requests] sent in between. *)
Definition logged_and_sent (requests : list chat_request) (w w' : world) : Prop :=
  exists entries,
    w' = World (conversationHistory w) (audioCleanupQueue w) (timers w) (timer_seq w)
           (files w) (logs w ++ entries) (sent w ++ requests).

(** A run of exchanges: a user turn, an assistant turn, and so on. *)
Fixpoint exchanges (h : list turn) : bool :=
  match h with
  | [] => true
  | u :: a :: rest =>
      String.eqb (role u) "user" && String.eqb (role a) "assistant" && exchanges rest
  | _ => false
  end.

(** A transcript as the phone channel builds it: the persona prompt as a
    system turn, then exchanges. *)
Definition transcript_shape (cfg : config) (h : list turn) : bool :=
  match h with
  | first :: rest =>
      bool_decide (first = Turn "system" (Some (systemPrompt cfg)) None) && exchanges rest
  | [] => false
  end.

(** The computation leaves the session store as it found it. *)
Definition keeps_history {A} (m : M A) : Prop :=
  forall w, conversationHistory (snd (m w)) = conversationHistory w.

(** Two states that differ at most in what was logged. *)
Definition same_but_logs (w1 w2 : world) : Prop :=
  conversationHistory w1 = conversationHistory w2
  /\ audioCleanupQueue w1 = audioCleanupQueue w2
  /\ timers w1 = timers w2
  /\ timer_seq w1 = timer_seq w2
  /\ files w1 = files w2
  /\ sent w1 = sent w2.

(** Two computations that, from states alike but for the logs, return the
    same result and end in states alike but for the logs. *)
Definition alike {A} (m1 m2 : M A) : Prop :=
  forall w1 w2, same_but_logs w1 w2 ->
    fst (m1 w1) = fst (m2 w2) /\ same_but_logs (snd (m1 w1)) (snd (m2 w2)).

(** Every character of [s] satisfies [p]. *)
Fixpoint string_forall (p : ascii -> bool) (s : string) : bool :=
  match s with
  | EmptyString => true
  | String c t => p c && string_forall p t
  end.

(** A character that is no line terminator. *)
Definition no_line_break (c : ascii) : bool := negb (Text.is_line_terminator c).

(** The janitor's books are in order: every file on disk is registered
    in the cleanup queue, every registration names a pending timer of its
    own path, and every pending timer is older than the next identifier. *)
Definition tidy (w : world) : Prop :=
  (forall p, is_Some (files w !! p) -> is_Some (audioCleanupQueue w !! p))
  /\ (forall p timeoutId,
        audioCleanupQueue w !! p = Some timeoutId ->
        exists delayMs, timers w !! timeoutId = Some (p, delayMs))
  /\ (forall timeoutId, is_Some (timers w !! timeoutId) -> timeoutId < timer_seq w).

(** The computation keeps the property [I] of the state. *)
Definition preserves {A} (I : world -> Prop) (m : M A) : Prop :=
  forall w, I w -> I (snd (m w)).

(* ===================================================================== *)
(** ** Sample data *)
(* ===================================================================== *)

Module Sample.

Definition voice : voice_config :=
  {| voice_model := "bulbul:v2"; voice_speaker := "anushka";
     voice_language := "en-IN"; voice_pitch := 0; voice_pace := 1;
     voice_loudness := 3 # 2;
     voice_description := "Anushka - Default Voice (Female)" |}.

Definition cfg : config :=
  {| systemPrompt := "Skylar - Skillora Design Academy Virtual Assistant";
     voiceConfig := voice;
     openAIConfig := {| openai_model := "gpt-4o"; openai_temperature := 7 # 10;
                        openai_maxTokens := 100 |};
     twilioConfig :=
       {| twilio_language := "en-IN, hi-IN, mr-IN, ta-IN, te-IN, ml-IN, kn-IN, bn-IN, gu-IN, pa-IN";
          twilio_speechTimeout := "auto" |};
     audioDir := "/srv/app/public/audio" |}.

(** A stand-in for base64 decoding: the payload itself. *)
Definition decode (s : string) : string := s.

Definition reply (s : string) : JS.result completion :=
  JS.Ok {| choices := [ {| choice_message := Some {| message_content := Some s |} |} ] |}.

Definition is_correction (r : chat_request) : bool :=
  String.eqb (req_model r) "gpt-4o-mini".

(** A completion provider that answers the correction request with
    [tagged] and every other request with [answer]. *)
Definition openai (tagged : JS.result completion) (answer : JS.result completion)
    (r : chat_request) : JS.result completion :=
  if is_correction r then tagged else answer.

Definition audio (payload : list string) : JS.result tts_response :=
  JS.Ok {| audios := Some payload |}.

Definition world_with (tagged answer : JS.result completion)
    (tts : JS.result tts_response) (key : option string) : ambient :=
  {| openai_create := openai tagged answer;
     axios_post := fun _ => tts;
     uuidv4 := "1b9d6bcd-bbfd-4b2d-9b5d-ab8dfbbd4bed";
     date_now := 1700000000000%N;
     SARVAM_API_KEY := key;
     PUBLIC_URL := Some "https://voice.example" |}.

Definition unreachable : JS.result completion :=
  JS.Throw (JS.Rejection "connect ECONNREFUSED").

Definition callSid : string := "CA5f0c1d2e3b4a69788796a5b4c3d2e1f0".

Definition tagged_english : JS.result completion :=
  reply "LANGUAGE: en
CORRECTED: I like drawing".

Definition tagged_french : JS.result completion :=
  reply "LANGUAGE: FR
CORRECTED: j'aime dessiner".

Definition untagged : JS.result completion :=
  reply "INTEREST_DETECTED: Drawing.
RECOMMENDED_COURSE: Graphic Design
REASON: This course builds on drawing skills.".

Definition advice : string :=
  "You may enjoy our Graphic Design course. Is there anything else I can help with?".

(** Providers that answer, with synthesis switched off. *)
Definition answering : ambient :=
  world_with tagged_english (reply advice) (audio []) None.

(** The completion provider rejects the turn request. *)
Definition failing : ambient :=
  world_with tagged_english unreachable (audio []) None.

(** The synthesis provider answers without a payload. *)
Definition silent : ambient :=
  world_with tagged_english (reply advice) (audio []) (Some "sarvam-test-key").

(** The state after the call [callSid] has started. *)
Definition started : world := snd (twilio_voice cfg callSid empty_world).

(** The state after one answered turn of that call. *)
Definition exchanged : world :=
  snd (handle cfg decode
         (SpeechResult answering callSid (Some "I like drawing") (Some "0.93"))
         (snd (handle cfg decode (CallStart callSid) empty_world))).

(** The synthesis provider answers with a payload. *)
Definition voiced : ambient :=
  world_with untagged (reply advice) (audio ["UklGRiQAAABXQVZF"]) (Some "sarvam-test-key").

End Sample.

Module Studio.

(** A translation provider that answers every request with [answer]. *)
Definition translating (answer : JS.result (list string)) (key : option string) : outside :=
  {| translate_translate := fun _ _ => answer;
     GOOGLE_TRANSLATE_API_KEY := key;
     transcriptions_create :=
       fun _ => JS.Throw (JS.Rejection "connect ECONNREFUSED") |}.

(** A transcription provider that answers every request with [answer]. *)
Definition transcribing (answer : JS.result transcription) : outside :=
  {| translate_translate := fun _ _ => JS.Throw (JS.Rejection "connect ECONNREFUSED");
     GOOGLE_TRANSLATE_API_KEY := None;
     transcriptions_create := fun _ => answer |}.

Definition heard : JS.result transcription :=
  JS.Ok (Transcription "I like drawing" (Some "english") (5 # 2)).

Definition tempDir : string := "/srv/app/temp".

Definition uploaded : upload :=
  Upload "question.wav" 4410 "/srv/app/temp/upload_7c9e6679.wav".

(** A state whose disk holds the uploaded file. *)
Definition with_upload : world :=
  set_files (<[upload_path uploaded := "RIFF"]> ∅) empty_world.

(** The state after a voiced greeting on the web channel. *)
Definition greeted : world :=
  snd (handle Sample.cfg Sample.decode
         (WebChat Sample.voiced (Some "web-7") "__GREETING__" None) empty_world).

(** The completion provider answers the turn with a message whose content
    is [null]; the synthesis provider answers without a payload. *)
Definition wordless : ambient :=
  Sample.world_with Sample.tagged_english
    (JS.Ok {| choices := [ {| choice_message := Some {| message_content := None |} |} ] |})
    (Sample.audio []) (Some "sarvam-test-key").

End Studio.

(* ===================================================================== *)
(** ** Properties *)
(* ===================================================================== *)

(** Unfolds the monad and the state accessors, leaving strings alone. *)
Ltac run :=
  cbv beta iota zeta delta
    [bind ret throw try_catch await modify gets log
     existsSync unlinkSync writeFileSync chat_completions_create
     first_content content_trim
     set_history set_queue set_timers set_files set_logs set_sent
     conversationHistory audioCleanupQueue timers timer_seq files logs sent
     fst snd].

Example match_language_hi :
  Text.match_language "language:   HI
CORRECTED: mujhe drawing pasand hai" = Some "HI".
Proof. reflexivity. Qed.

Example match_corrected_line :
  Text.match_corrected "LANGUAGE: hi
Corrected:  mujhe drawing pasand hai
ignored" = Some "mujhe drawing pasand hai".
Proof. reflexivity. Qed.

Example match_corrected_backtracks :
  Text.match_corrected "CORRECTED:   " = Some " ".
Proof. reflexivity. Qed.

Example match_language_needs_two_letters :
  Text.match_language "LANGUAGE: 4x, LANGUAGE:e" = None.
Proof. reflexivity. Qed.

Example trim_both_sides : Text.trim "  a b
" = "a b".
Proof. reflexivity. Qed.

Example detect_tagged :
  fst (detectLanguageAndCorrect
         (Sample.world_with (Sample.reply "LANGUAGE: HI
CORRECTED: mujhe drawing pasand hai ") Sample.unreachable (Sample.audio []) None)
         "muje droing pasand he" empty_world)
  = JS.Ok (Correction "hi" "mujhe drawing pasand hai").
Proof. reflexivity. Qed.

Example detect_untagged :
  fst (detectLanguageAndCorrect
         (Sample.world_with (Sample.reply "INTEREST_DETECTED: Drawing.
RECOMMENDED_COURSE: Graphic Design
REASON: It teaches drawing.") Sample.unreachable (Sample.audio []) None)
         "I like drawing" empty_world)
  = JS.Ok (Correction "en" "I like drawing").
Proof. reflexivity. Qed.

(** *** Language correction *)

Lemma detect_run (x : ambient) (text : string) (w : world) :
  exists w',
    detectLanguageAndCorrect x text w
    = (JS.Ok (correction_of (openai_create x (correction_request text)) text), w')
    /\ logged_and_sent [correction_request text] w w'.
Proof.
  unfold detectLanguageAndCorrect, logged_and_sent, correction_of, reply_text, reply_content.
  destruct w as [h q t n f l s]. run.
  destruct (openai_create x (correction_request text)) as [c|e]; run.
  - destruct (choices c) as [|ch rest]; run.
    + eexists. split; [reflexivity|]. eexists [_]. reflexivity.
    + destruct (choice_message ch) as [m|]; run; cbn.
      * destruct (message_content m); run;
          (eexists; split; [reflexivity|]; eexists [_]; reflexivity).
      * eexists. split; [reflexivity|]. eexists [_]. reflexivity.
  - eexists. split; [reflexivity|]. eexists [_]. reflexivity.
Qed.

Lemma reply_text_rejected (e : JS.exn) : reply_text (JS.Throw e) = None.
Proof. reflexivity. Qed.

(** C1. Language correction fails soft: [detectLanguageAndCorrect] always
    returns a value and never throws. When the provider call is rejected,
    or its reply has no text to read, the value is the original utterance
    with the language code "en". When the reply has a text, a missing
    LANGUAGE tag gives the code "en" and a missing CORRECTED tag gives the
    original utterance. *)
Theorem detectLanguageAndCorrect_fails_soft (x : ambient) (text : string) (w : world) :
  let reply := openai_create x (correction_request text) in
  exists r w',
    detectLanguageAndCorrect x text w = (JS.Ok r, w')
    /\ (forall e, reply = JS.Throw e -> r = Correction "en" text)
    /\ (reply_text reply = None -> r = Correction "en" text)
    /\ (forall s, reply_text reply = Some s ->
          (Text.match_language (Text.trim s) = None -> language r = "en")
          /\ (Text.match_corrected (Text.trim s) = None -> correctedText r = text)).
Proof.
  intros reply. destruct (detect_run x text w) as (w' & Hrun & _).
  fold reply in Hrun. eexists _, w'. split; [exact Hrun|].
  unfold correction_of. split; [|split].
  - intros e ->. reflexivity.
  - intros ->. reflexivity.
  - intros s ->. cbn. split; intros ->; reflexivity.
Qed.


(** *** The locale table *)

Lemma two_letters_length (s c : string) :
  Text.two_letters s = Some c -> String.length c = 2.
Proof.
  destruct s as [|a [|b s]]; cbn; try discriminate.
  destruct (Text.is_letter a && Text.is_letter b); [|discriminate].
  intros [= <-]. reflexivity.
Qed.

Lemma spaces_then_inv {A} (k : string -> option A) (s : string) (r : A) :
  Text.spaces_then k s = Some r -> exists u, k u = Some r.
Proof.
  induction s as [|c s IH]; cbn; [eauto|].
  destruct (Text.is_space c); [|eauto].
  destruct (Text.spaces_then k s) eqn:E; [|eauto].
  intros [= <-]. apply IH. reflexivity.
Qed.

Lemma search_inv {A} (f : string -> option A) (s : string) (r : A) :
  Text.search f s = Some r -> exists u, f u = Some r.
Proof.
  induction s as [|c s IH]; cbn.
  - destruct (f EmptyString) eqn:E; [|discriminate]. intros [= <-]. eauto.
  - destruct (f (String c s)) eqn:E; [|exact IH]. intros [= <-]. eauto.
Qed.

Lemma toLowerCase_length (s : string) :
  String.length (Text.toLowerCase s) = String.length s.
Proof. induction s as [|c s IH]; cbn; congruence. Qed.

Lemma match_language_length (s c : string) :
  Text.match_language s = Some c -> String.length c = 2.
Proof.
  unfold Text.match_language. intros H.
  apply search_inv in H as [u H].
  destruct (Text.literal_ci "LANGUAGE:" u) as [v|]; [|discriminate].
  cbn in H. apply spaces_then_inv in H as [t H].
  eapply two_letters_length, H.
Qed.

(** Every detected language code has two characters. *)
Lemma detected_code_length (reply : JS.result completion) (text : string) :
  String.length (language (correction_of reply text)) = 2.
Proof.
  unfold correction_of. destruct (reply_text reply) as [s|]; [|reflexivity].
  cbn. destruct (Text.match_language (Text.trim s)) as [c|] eqn:E; [|reflexivity].
  rewrite toLowerCase_length. eapply match_language_length, E.
Qed.

(** A two-character key names nothing that a plain object inherits. *)
Lemma prototype_get_two_chars (k : string) :
  String.length k = 2 -> JS.prototype_get k = None.
Proof.
  intros Hk. unfold JS.prototype_get.
  repeat case_decide; try reflexivity; subst; try discriminate.
  exfalso. unfold JS.prototype_methods in *.
  repeat match goal with
         | H : _ ∈ _ :: _ |- _ => apply elem_of_cons in H as [->|H]; [discriminate|]
         | H : _ ∈ [] |- _ => inversion H
         end.
Qed.

(** Every tag of the table is a non-empty string. *)
Lemma languageMapping_truthy (code tag : string) :
  languageMapping !! code = Some tag -> JS.truthy (JS.Str tag) = true.
Proof.
  intros H. apply elem_of_list_to_map_2 in H.
  repeat match goal with
         | H : _ ∈ _ :: _ |- _ => apply elem_of_cons in H as [[= -> ->]|H]; [reflexivity|]
         | H : _ ∈ [] |- _ => inversion H
         end.
Qed.

(** C4. [getSarvamLanguageCode] returns the tag of the ten-entry table for
    each of its keys, and the baseline tag "en-IN" for every detected
    language code that is not a key (more generally, for every string that
    is neither a key nor the name of an inherited property); being a total
    lookup, it raises nothing. *)
Theorem getSarvamLanguageCode_table_or_default :
  size languageMapping = 10
  /\ (forall code tag,
        languageMapping !! code = Some tag -> getSarvamLanguageCode code = JS.Str tag)
  /\ (forall x text w r w',
        detectLanguageAndCorrect x text w = (JS.Ok r, w') ->
        languageMapping !! language r = None ->
        getSarvamLanguageCode (language r) = JS.Str "en-IN")
  /\ (forall code,
        languageMapping !! code = None -> JS.prototype_get code = None ->
        getSarvamLanguageCode code = JS.Str "en-IN").
Proof.
  split; [reflexivity|]. split; [|split].
  - intros code tag H. unfold getSarvamLanguageCode, JS.get. rewrite H.
    cbn [JS.or_else]. rewrite (languageMapping_truthy _ _ H). reflexivity.
  - intros x text w r w' Hrun Hnone.
    destruct (detect_run x text w) as (w1 & Hrun' & _).
    rewrite Hrun in Hrun'. injection Hrun' as -> _.
    unfold getSarvamLanguageCode, JS.get. rewrite Hnone.
    rewrite prototype_get_two_chars; [reflexivity|]. apply detected_code_length.
  - intros code Hnone Hproto. unfold getSarvamLanguageCode, JS.get.
    rewrite Hnone, Hproto. reflexivity.
Qed.

(** *** Call end *)

Lemma call_status_run (callSid callStatus : string) (w : world) :
  terminal_status callStatus = true ->
  exists entries,
    call_status callSid callStatus w
    = (JS.Ok (SendStatus 200),
       World (delete callSid (conversationHistory w)) (audioCleanupQueue w) (timers w)
         (timer_seq w) (files w) (logs w ++ entries) (sent w)).
Proof.
  intros Hterm. destruct w as [h q t n f l s].
  unfold call_status. rewrite Hterm. run.
  case_bool_decide as Hk; run.
  - eexists [_; _]. rewrite <- app_assoc. reflexivity.
  - eexists [_]. rewrite delete_id; [reflexivity|]. by apply eq_None_not_Some.
Qed.

(** C3. After a call-status event with a terminal status the session is
    absent from the store and the other sessions are untouched; a second
    terminal event for the same identifier raises nothing and leaves the
    store as it is (only the status line is logged). *)
Theorem call_status_terminal_idempotent (callSid callStatus : string) (w : world) :
  terminal_status callStatus = true ->
  let once := call_status callSid callStatus w in
  fst once = JS.Ok (SendStatus 200)
  /\ conversationHistory (snd once) !! callSid = None
  /\ conversationHistory (snd once) = delete callSid (conversationHistory w)
  /\ forall callStatus', terminal_status callStatus' = true ->
       let twice := call_status callSid callStatus' (snd once) in
       fst twice = JS.Ok (SendStatus 200)
       /\ conversationHistory (snd twice) = conversationHistory (snd once)
       /\ logged_and_sent [] (snd once) (snd twice).
Proof.
  intros Hterm. cbn zeta.
  destruct (call_status_run callSid callStatus w Hterm) as [entries ->].
  cbn [fst snd conversationHistory].
  split; [done|]. split; [apply lookup_delete_eq|]. split; [done|].
  intros callStatus' Hterm'.
  edestruct (call_status_run callSid callStatus') as [entries' ->]; [exact Hterm'|].
  cbn [fst snd conversationHistory audioCleanupQueue timers timer_seq files logs sent].
  split; [done|]. split; [apply delete_delete_eq|].
  exists entries'. rewrite app_nil_r, delete_delete_eq. reflexivity.
Qed.

(** *** The janitor *)

Lemma cleanup_callback_run (filePath : string) (w : world) :
  cleanup_callback filePath w
  = (JS.Ok tt,
     World (conversationHistory w) (delete filePath (audioCleanupQueue w)) (timers w)
       (timer_seq w) (delete filePath (files w))
       (logs w ++ match files w !! filePath with
                  | Some _ => [Log info ("Cleaned up audio file: " +:+ filePath) []]
                  | None => []
                  end)
       (sent w)).
Proof.
  destruct w as [h q t n f l s]. unfold cleanup_callback. run.
  destruct (f !! filePath) as [data|] eqn:E.
  - rewrite bool_decide_eq_true_2 by eauto. run. rewrite E. reflexivity.
  - rewrite bool_decide_eq_false_2 by (intros [? ?]; discriminate). run.
    rewrite app_nil_r, (delete_id f) by exact E. reflexivity.
Qed.

(** C7. The scheduled deletion returns normally, removes the file when it
    is present (and touches no file when it is absent), removes the
    path's registration, and logs no error; run a second time it changes
    nothing at all, so the file stays deleted. The timer that
    [scheduleAudioCleanup] registers is one-shot and runs this deletion. *)
Theorem cleanup_callback_idempotent (filePath : string) (w : world) :
  let once := cleanup_callback filePath w in
  fst once = JS.Ok tt
  /\ files (snd once) = delete filePath (files w)
  /\ (files w !! filePath = None -> files (snd once) = files w)
  /\ audioCleanupQueue (snd once) = delete filePath (audioCleanupQueue w)
  /\ (forall entry, entry ∈ logs (snd once) -> entry ∉ logs w -> log_level entry = info)
  /\ cleanup_callback filePath (snd once) = (JS.Ok tt, snd once)
  /\ (forall delayMs,
        let scheduled := snd (scheduleAudioCleanup filePath delayMs w) in
        audioCleanupQueue scheduled !! filePath = Some (timer_seq w)
        /\ timers scheduled !! timer_seq w = Some (filePath, delayMs)
        /\ let fired := snd (fire_timer (timer_seq w) scheduled) in
           files fired !! filePath = None
           /\ audioCleanupQueue fired !! filePath = None
           /\ timers fired !! timer_seq w = None).
Proof.
  cbn zeta. rewrite !cleanup_callback_run.
  cbn [fst snd conversationHistory audioCleanupQueue timers timer_seq files logs sent].
  split; [done|]. split; [done|]. split; [apply delete_id|]. split; [done|].
  split; [|split].
  - intros entry Hin Hnot. apply elem_of_app in Hin as [Hin|Hin]; [done|].
    destruct (files w !! filePath); [|inversion Hin].
    apply list_elem_of_singleton in Hin as ->. reflexivity.
  - rewrite lookup_delete_eq, app_nil_r, !delete_delete_eq. reflexivity.
  - intros delayMs. destruct w as [h q t n f l s].
    unfold scheduleAudioCleanup, fire_timer. run.
    rewrite !lookup_insert_eq. run. rewrite cleanup_callback_run.
    cbn [fst snd conversationHistory audioCleanupQueue timers timer_seq files logs sent].
    rewrite !lookup_delete_eq. done.
Qed.

(** *** Speech synthesis on the phone channel *)

Lemma alter_known {A} (f : A -> A) (m : gmap string A) (k : string) (a : A) :
  m !! k = Some a -> alter f k m = <[k := f a]> m.
Proof.
  intros H. apply map_eq. intros j. destruct (decide (k = j)) as [<-|Hne].
  - rewrite lookup_alter_eq, lookup_insert_eq, H. reflexivity.
  - rewrite lookup_alter_ne, lookup_insert_ne by done. reflexivity.
Qed.

Section Synthesis.

Variables (cfg : config) (decode : string -> string) (x : ambient).
Variables (twiml : list verb) (text : option string) (callSid detectedLanguage : string).

Let request := sarvam_request cfg x text (getSarvamLanguageCode detectedLanguage).


(** [handleSarvamAIResponse] never throws, and touches neither the
    session store nor the record of completion requests. *)
Lemma handleSarvamAIResponse_total (w : world) :
  exists tw w',
    handleSarvamAIResponse cfg decode x twiml text callSid detectedLanguage w
    = (JS.Ok tw, w')
    /\ conversationHistory w' = conversationHistory w
    /\ sent w' = sent w.
Proof.
  destruct w as [h q t n f l s].
  unfold handleSarvamAIResponse, sarvam_playback, scheduleAudioCleanup.
  fold request. unfold first_audio. run.
  destruct (axios_post x request) as [r|e]; run; [|by eexists _, _].
  destruct (audios r) as [payload|]; run; [|by eexists _, _].
  destruct (JS.truthy_str (head payload)); run; by eexists _, _.
Qed.

End Synthesis.

Lemma voice_reply_total (cfg : config) (decode : string -> string) (x : ambient)
    (callSid : string) (gptResponse : option string) (detectedLanguage languageName : string)
    (w : world) :
  exists tw w',
    voice_reply cfg decode x callSid gptResponse detectedLanguage languageName w
    = (JS.Ok tw, w')
    /\ conversationHistory w' = conversationHistory w
    /\ sent w' = sent w.
Proof.
  unfold voice_reply. destruct (sarvam_configured x).
  - destruct w as [h q t n f l s]. run.
    match goal with
    | |- context [handleSarvamAIResponse ?c ?d ?x ?tw ?tx ?cs ?dl ?W] =>
        destruct (handleSarvamAIResponse_total c d x tw tx cs dl W) as (tw' & w' & -> & Hh & Hs)
    end.
    eexists _, _. split; [reflexivity|]. exact (conj Hh Hs).
  - destruct w as [h q t n f l s]. run. by eexists _, _.
Qed.

(** *** A turn of the phone channel *)

Section PhoneTurn.

Variables (cfg : config) (decode : string -> string) (x : ambient).
Variables (callSid speech : string) (confidence : option string).
Variables (w : world) (history : list turn).

Hypothesis speech_heard : speech <> EmptyString.
Hypothesis call_named : callSid <> EmptyString.
Hypothesis call_known : conversationHistory w !! callSid = Some history.

Let c := correction_of (openai_create x (correction_request speech)) speech.
Let messages :=
  messagesWithLanguage cfg (languageName_of (language c)) history (correctedText c).
Let reply := openai_create x (turn_request cfg messages).
Let user_turn :=
  Turn "user" (Some (correctedText c)) (Some (UserMeta (language c) speech)).

Lemma speech_accepted_known (w0 : world) :
  conversationHistory w0 = conversationHistory w ->
  speech_accepted (Some speech) callSid w0 = true.
Proof.
  intros Hh. unfold speech_accepted. rewrite Hh, call_known. cbn [JS.truthy_str].
  apply String.eqb_neq in speech_heard, call_named.
  rewrite speech_heard, call_named. cbn [negb andb].
  apply bool_decide_eq_true_2. eauto.
Qed.

(** The completion call fails, or its reply cannot be read: the [catch]
    block answers with the retry prompt and the store is as before. *)
Lemma handle_speech_turn_fails :
  reply_content reply = None ->
  exists w',
    handle_speech cfg decode x callSid (Some speech) confidence w
    = (JS.Ok (Xml (retry_prompt cfg callSid)), w')
    /\ logged_and_sent [correction_request speech; turn_request cfg messages] w w'.
Proof.
  intros Hfail. unfold handle_speech, logged_and_sent.
  pose proof speech_accepted_known as Hacc.
  destruct w as [h q t n f l s]. run.
  rewrite Hacc by reflexivity. run.
  unfold conversation_turn. run.
  match goal with
  | |- context [detectLanguageAndCorrect ?x ?t ?W] =>
      destruct (detect_run x t W) as (w1 & -> & [entries ->])
  end.
  fold c. run. cbn [conversationHistory] in call_known. rewrite call_known. run.
  fold messages. fold reply. unfold reply_content in Hfail.
  destruct reply as [cm|e]; run.
  - destruct (choices cm) as [|ch rest]; run.
    + rewrite <- !app_assoc. cbn [app]. eexists. split; [reflexivity|].
      eexists. reflexivity.
    + destruct (choice_message ch); [discriminate|]. run.
      rewrite <- !app_assoc. cbn [app]. eexists. split; [reflexivity|].
      eexists. reflexivity.
  - rewrite <- !app_assoc. cbn [app]. eexists. split; [reflexivity|].
    eexists. reflexivity.
Qed.

(** The completion call answers: both turns are appended to the stored
    transcript, and the reply is then voiced. *)
Lemma handle_speech_turn_answers (content : option string) :
  reply_content reply = Some content ->
  exists entries tw w',
    voice_reply cfg decode x callSid content (language c) (languageName_of (language c))
      (World
         (<[callSid := history ++ [user_turn;
              Turn "assistant" content (Some (AssistantMeta (language c)))]]>
            (conversationHistory w))
         (audioCleanupQueue w) (timers w) (timer_seq w) (files w) (logs w ++ entries)
         (sent w ++ [correction_request speech; turn_request cfg messages]))
    = (JS.Ok tw, w')
    /\ handle_speech cfg decode x callSid (Some speech) confidence w
       = (JS.Ok (Xml tw), w').
Proof.
  intros Hok. unfold handle_speech.
  pose proof speech_accepted_known as Hacc.
  destruct w as [h q t n f l s]. run.
  rewrite Hacc by reflexivity. run.
  unfold conversation_turn, history_push. run.
  match goal with
  | |- context [detectLanguageAndCorrect ?x ?t ?W] =>
      destruct (detect_run x t W) as (w1 & -> & [entries ->])
  end.
  fold c. run. cbn [conversationHistory] in call_known. rewrite call_known. run.
  fold messages. fold reply. unfold reply_content in Hok.
  destruct reply as [cm|e]; [|discriminate]. run.
  destruct (choices cm) as [|ch rest]; [discriminate|]. run.
  destruct (choice_message ch) as [m|]; [|discriminate]. run.
  cbn in Hok. injection Hok as Hok. rewrite Hok.
  rewrite (alter_known _ h callSid history call_known).
  rewrite (alter_known _ _ callSid (history ++ [user_turn]))
    by apply lookup_insert_eq.
  rewrite insert_insert_eq, <- !app_assoc. cbn [app].
  eexists.
  match goal with
  | |- context [voice_reply ?c ?d ?x ?cs ?g ?dl ?ln ?W] =>
      destruct (voice_reply_total c d x cs g dl ln W) as (tw & w' & Hv & _ & _)
  end.
  exists tw, w'. split; [exact Hv|]. rewrite Hv. reflexivity.
Qed.

End PhoneTurn.

(** The language name that a handler derives from a detected code. *)
Lemma languageName_of_detected (reply : JS.result completion) (text : string) :
  languageName_of (language (correction_of reply text))
  = default "English" (languageNames !! language (correction_of reply text)).
Proof.
  unfold languageName_of, JS.get.
  destruct (languageNames !! _) as [name|] eqn:E.
  - cbn [JS.or_else default].
    apply elem_of_list_to_map_2 in E.
    repeat match goal with
           | H : _ ∈ _ :: _ |- _ =>
               apply elem_of_cons in H as [[= _ ->]|H]; [reflexivity|]
           | H : _ ∈ [] |- _ => inversion H
           end.
  - rewrite prototype_get_two_chars by apply detected_code_length. reflexivity.
Qed.

(** C5. For a known call with recognised speech, when the completion call
    answers, the request sent carries exactly: the system message made of
    the persona prompt followed by the language instruction, then the
    stored transcript without its first entry, then the new user message
    with the corrected text; it goes out with the configured model,
    temperature and output bound. Afterwards the stored transcript has
    grown by exactly two turns, a user turn and an assistant turn, each
    with its language metadata; other sessions are untouched and the
    handler answers with TwiML. *)
Theorem handle_speech_appends_user_and_assistant
    (cfg : config) (decode : string -> string) (x : ambient)
    (callSid speech : string) (confidence : option string)
    (w : world) (history : list turn) (content : option string) :
  speech <> EmptyString ->
  callSid <> EmptyString ->
  conversationHistory w !! callSid = Some history ->
  let correction :=
    ChatRequest "gpt-4o-mini"
      [ Turn "system" (Some correctionPrompt) None; Turn "user" (Some speech) None ]
      0 150 in
  let c := correction_of (openai_create x correction) speech in
  let languageName := default "English" (languageNames !! language c) in
  let instruction := "

CRITICAL LANGUAGE INSTRUCTION:
The user is speaking in " +:+ languageName +:+ ". You MUST respond ONLY in " +:+ languageName +:+ ".
- Write your ENTIRE response in " +:+ languageName +:+ " language
- For Indian languages, you can use Roman script (transliteration) or native script
- Do NOT use English at all unless the user is speaking English
- Do NOT mix languages
- Keep responses concise (under 30 words) for phone calls

This is MANDATORY. Respond in " +:+ languageName +:+ " ONLY." in
  let messages :=
    [Turn "system" (Some (systemPrompt cfg +:+ instruction)) None]
    ++ drop 1 history
    ++ [Turn "user" (Some (correctedText c)) None] in
  let request :=
    ChatRequest (openai_model (openAIConfig cfg)) messages
      (openai_temperature (openAIConfig cfg)) (openai_maxTokens (openAIConfig cfg)) in
  reply_content (openai_create x request) = Some content ->
  let result := handle_speech cfg decode x callSid (Some speech) confidence w in
  (exists twiml, fst result = JS.Ok (Xml twiml))
  /\ sent (snd result) = sent w ++ [correction; request]
  /\ conversationHistory (snd result) !! callSid
     = Some (history
             ++ [Turn "user" (Some (correctedText c)) (Some (UserMeta (language c) speech));
                 Turn "assistant" content (Some (AssistantMeta (language c)))])
  /\ (forall h', conversationHistory (snd result) !! callSid = Some h' ->
        length h' = length history + 2)
  /\ (forall other, other <> callSid ->
        conversationHistory (snd result) !! other = conversationHistory w !! other).
Proof.
  intros Hspeech Hsid Hknown correction c languageName.
  assert (Hname : languageName = languageName_of (language c))
    by (symmetry; apply languageName_of_detected).
  clearbody languageName. subst languageName.
  intros instruction messages request Hreply result.
  destruct (handle_speech_turn_answers cfg decode x callSid speech confidence w history
              Hspeech Hsid Hknown content Hreply) as (entries & tw & w' & Hvoice & Hrun).
  match type of Hvoice with
  | voice_reply ?c ?d ?x ?cs ?g ?dl ?ln ?W = _ =>
      destruct (voice_reply_total c d x cs g dl ln W) as (tw' & w'' & Hv & Hh & Hs)
  end.
  rewrite Hvoice in Hv. injection Hv as <- <-.
  cbn [conversationHistory sent] in Hh, Hs.
  subst result. rewrite Hrun. cbn [fst snd]. rewrite Hh, Hs.
  split; [eauto|]. split; [reflexivity|]. split; [apply lookup_insert_eq|]. split.
  - rewrite lookup_insert_eq. intros h' [= <-]. rewrite length_app. reflexivity.
  - intros other Hne. apply lookup_insert_ne. done.
Qed.

(** C10. For a known call with recognised speech, when the completion call
    of the turn is rejected, the stored transcripts are exactly as before
    the turn (no user turn, no assistant turn), nothing is written to disk
    or scheduled, and the handler answers normally with the retry
    prompt. *)
Theorem handle_speech_completion_failure_keeps_history
    (cfg : config) (decode : string -> string) (x : ambient)
    (callSid speech : string) (confidence : option string)
    (w : world) (history : list turn) (e : JS.exn) :
  speech <> EmptyString ->
  callSid <> EmptyString ->
  conversationHistory w !! callSid = Some history ->
  let c := correction_of (openai_create x (correction_request speech)) speech in
  let messages :=
    messagesWithLanguage cfg (languageName_of (language c)) history (correctedText c) in
  openai_create x (turn_request cfg messages) = JS.Throw e ->
  let result := handle_speech cfg decode x callSid (Some speech) confidence w in
  fst result
  = JS.Ok (Xml
      [ Gather (GatherAttrs "speech" ("/handle-speech?callSid=" +:+ callSid)
                  (twilio_speechTimeout (twilioConfig cfg))
                  (twilio_language (twilioConfig cfg)) true)
          [Say (Some "I seem to be having some trouble. Please try speaking again.")];
        SayVerb "Thank you for calling. Goodbye.";
        Hangup ])
  /\ conversationHistory (snd result) = conversationHistory w
  /\ conversationHistory (snd result) !! callSid = Some history
  /\ files (snd result) = files w
  /\ audioCleanupQueue (snd result) = audioCleanupQueue w.
Proof.
  intros Hspeech Hsid Hknown c messages Hreply result.
  destruct (handle_speech_turn_fails cfg decode x callSid speech confidence w history
              Hspeech Hsid Hknown) as (w' & Hrun & [entries ->]).
  { fold c. fold messages. rewrite Hreply. reflexivity. }
  subst result. rewrite Hrun. cbn [fst snd conversationHistory files audioCleanupQueue].
  done.
Qed.


(** *** Computations that leave the session store alone *)

Section KeepsHistory.

Context {A B : Type}.

Lemma keeps_ret (a : A) : keeps_history (ret a).
Proof. intros w. reflexivity. Qed.

Lemma keeps_throw (e : JS.exn) : keeps_history (throw (A := A) e).
Proof. intros w. reflexivity. Qed.

Lemma keeps_await (r : JS.result A) : keeps_history (await r).
Proof. intros w. reflexivity. Qed.

Lemma keeps_gets (f : world -> A) : keeps_history (gets f).
Proof. intros w. reflexivity. Qed.

Lemma keeps_bind (m : M A) (k : A -> M B) :
  keeps_history m -> (forall a, keeps_history (k a)) -> keeps_history (bind m k).
Proof.
  intros Hm Hk w. unfold bind. specialize (Hm w).
  destruct (m w) as [[a|e] w1]; cbn [snd] in *; [|exact Hm].
  rewrite Hk. exact Hm.
Qed.

Lemma keeps_try_catch (body : M A) (handler : JS.exn -> M A) :
  keeps_history body -> (forall e, keeps_history (handler e)) ->
  keeps_history (try_catch body handler).
Proof.
  intros Hm Hk w. unfold try_catch. specialize (Hm w).
  destruct (body w) as [[a|e] w1]; cbn [snd] in *; [exact Hm|].
  rewrite Hk. exact Hm.
Qed.

End KeepsHistory.

Lemma keeps_modify (f : world -> world) :
  (forall w, conversationHistory (f w) = conversationHistory w) ->
  keeps_history (modify f).
Proof. intros Hf w. apply Hf. Qed.

Lemma keeps_log (l : level) (msg : string) (m : list (string * string)) :
  keeps_history (log l msg m).
Proof. apply keeps_modify. reflexivity. Qed.

(** Decomposes a goal [keeps_history m] along the structure of [m]. *)
Ltac keeps :=
  repeat first
    [ apply keeps_ret | apply keeps_throw | apply keeps_await | apply keeps_gets
    | apply keeps_log
    | apply keeps_modify; reflexivity
    | apply keeps_bind; [|intros ?]
    | apply keeps_try_catch; [|intros ?]
    | match goal with
      | |- keeps_history (if ?b then _ else _) => destruct b
      | |- keeps_history (match ?o with Some _ => _ | None => _ end) => destruct o
      | |- keeps_history (match ?o with [] => _ | _ :: _ => _ end) => destruct o
      end
    | progress unfold chat_completions_create, first_content, content_trim,
        writeFileSync ].

Lemma keeps_detect (x : ambient) (text : string) :
  keeps_history (detectLanguageAndCorrect x text).
Proof.
  unfold detectLanguageAndCorrect. keeps.
Qed.

Lemma keeps_scheduleAudioCleanup (filePath : string) (delayMs : N) :
  keeps_history (scheduleAudioCleanup filePath delayMs).
Proof. unfold scheduleAudioCleanup. keeps. Qed.

Lemma keeps_chat (cfg : config) (decode : string -> string) (x : ambient)
    (sessionHeader : option string) (message : string) (clientHistory : option (list turn)) :
  keeps_history (chat cfg decode x sessionHeader message clientHistory).
Proof.
  unfold chat, chat_reply, chat_synthesis, chat_messages, first_audio.
  repeat first [apply keeps_detect | apply keeps_scheduleAudioCleanup | progress keeps].
Qed.

(** *** The shape of stored transcripts *)

(** Induction over a list two elements at a time. *)
Lemma pairs_ind {A} (P : list A -> Prop) :
  P [] -> (forall a, P [a]) -> (forall a b l, P l -> P (a :: b :: l)) ->
  forall l, P l.
Proof.
  intros Hnil Hone Hstep l.
  enough (P l /\ forall a, P (a :: l)) as [H _] by exact H.
  induction l as [|b l [IH1 IH2]]; [by split|].
  split; [apply IH2|]. intros a. apply Hstep, IH1.
Qed.

Lemma exchanges_app (l : list turn) (u a : turn) :
  exchanges l = true -> role u = "user" -> role a = "assistant" ->
  exchanges (l ++ [u; a]) = true.
Proof.
  intros Hl Hu Ha. induction l as [| |u0 a0 l IH] using pairs_ind; cbn in *.
  - rewrite Hu, Ha. reflexivity.
  - discriminate.
  - apply andb_prop in Hl as [Hroles Hl]. rewrite Hroles. apply IH, Hl.
Qed.

Lemma exchanges_alternating (l : list turn) :
  exchanges l = true ->
  forall p, role p <> "user" -> alternating (p :: l) = true.
Proof.
  induction l as [| |u a l IH] using pairs_ind; intros Hl p Hp; cbn in Hl.
  - reflexivity.
  - discriminate.
  - apply andb_prop in Hl as [Hroles Hl]. apply andb_prop in Hroles as [Hu Ha].
    apply String.eqb_eq in Hu, Ha.
    change (negb (String.eqb (role p) (role u))
            && (negb (String.eqb (role u) (role a)) && alternating (a :: l)) = true).
    rewrite Hu, Ha. apply String.eqb_neq in Hp. rewrite Hp.
    cbn. apply IH; [exact Hl|]. rewrite Ha. discriminate.
Qed.

Lemma exchanges_roles (l : list turn) :
  exchanges l = true -> forall m, m ∈ l -> role m = "user" \/ role m = "assistant".
Proof.
  induction l as [| |u a l IH] using pairs_ind; intros Hl m Hm; cbn in Hl.
  - inversion Hm.
  - discriminate.
  - apply andb_prop in Hl as [Hroles Hl]. apply andb_prop in Hroles as [Hu Ha].
    apply String.eqb_eq in Hu, Ha.
    apply elem_of_cons in Hm as [->|Hm]; [by left|].
    apply elem_of_cons in Hm as [->|Hm]; [by right|].
    apply IH; assumption.
Qed.

Lemma string_app_length (a b : string) :
  String.length (a +:+ b) = String.length a + String.length b.
Proof.
  induction a as [|c a IH]; [reflexivity|].
  change (String c a +:+ b) with (String c (a +:+ b)). cbn. congruence.
Qed.

(** The system message built for a turn is longer than the persona
    prompt, hence different from it. *)
Lemma phone_system_content_synthetic (cfg : config) (languageName : string) :
  phone_system_content cfg languageName <> systemPrompt cfg.
Proof.
  intros H. apply (f_equal String.length) in H.
  unfold phone_system_content in H. rewrite !string_app_length in H.
  cbn [String.length] in H. lia.
Qed.

Section Shape.

Variable cfg : config.

Lemma shape_alternating (h : list turn) :
  transcript_shape cfg h = true -> alternating h = true.
Proof.
  destruct h as [|first rest]; [discriminate|]. cbn.
  intros H. apply andb_prop in H as [Hfirst Hrest].
  apply bool_decide_eq_true in Hfirst as ->.
  apply exchanges_alternating; [exact Hrest|]. discriminate.
Qed.

Lemma shape_system_turns (h : list turn) :
  transcript_shape cfg h = true ->
  forall m, m ∈ h -> role m = "system" -> m = Turn "system" (Some (systemPrompt cfg)) None.
Proof.
  destruct h as [|first rest]; [discriminate|]. cbn.
  intros H m Hm Hrole. apply andb_prop in H as [Hfirst Hrest].
  apply bool_decide_eq_true in Hfirst as ->.
  apply elem_of_cons in Hm as [->|Hm]; [reflexivity|].
  destruct (exchanges_roles rest Hrest m Hm) as [Hr|Hr];
    rewrite Hr in Hrole; discriminate.
Qed.

Lemma shape_start : transcript_shape cfg [Turn "system" (Some (systemPrompt cfg)) None] = true.
Proof. cbn. rewrite bool_decide_eq_true_2 by reflexivity. reflexivity. Qed.

Lemma shape_exchange (h : list turn) (u a : turn) :
  transcript_shape cfg h = true -> role u = "user" -> role a = "assistant" ->
  transcript_shape cfg (h ++ [u; a]) = true.
Proof.
  destruct h as [|first rest]; [discriminate|]. cbn.
  intros H Hu Ha. apply andb_prop in H as [-> Hrest].
  apply exchanges_app; assumption.
Qed.

End Shape.

(** *** What each request does to the session store *)

Section StoreEffects.

Variables (cfg : config) (decode : string -> string).

Lemma twilio_voice_run (callSid : string) (w : world) :
  conversationHistory (snd (twilio_voice cfg callSid w))
  = <[callSid := [Turn "system" (Some (systemPrompt cfg)) None]]> (conversationHistory w).
Proof. destruct w. reflexivity. Qed.

Lemma speech_accepted_inv (speech callSid : string) (w : world) :
  speech_accepted (Some speech) callSid w = true ->
  speech <> EmptyString /\ callSid <> EmptyString
  /\ exists history, conversationHistory w !! callSid = Some history.
Proof.
  unfold speech_accepted. cbn [JS.truthy_str]. intros H.
  apply andb_prop in H as [H Hknown]. apply andb_prop in H as [Hspeech Hsid].
  apply negb_true_iff, String.eqb_neq in Hspeech, Hsid.
  apply bool_decide_eq_true in Hknown as [history Hknown]. eauto.
Qed.

(** Without speech, or for an unknown call, the caller is asked again
    and nothing but the logs changes. *)
Lemma handle_speech_not_accepted (x : ambient) (callSid : string)
    (userSpeech confidence : option string) (w : world) :
  speech_accepted userSpeech callSid w = false ->
  exists twiml w',
    handle_speech cfg decode x callSid userSpeech confidence w = (JS.Ok (Xml twiml), w')
    /\ logged_and_sent [] w w'.
Proof.
  intros Hno. destruct w as [h q t n f l s].
  unfold handle_speech, logged_and_sent, no_speech. run.
  unfold speech_accepted in *. cbn [conversationHistory] in *. rewrite Hno.
  destruct userSpeech; run; rewrite <- !app_assoc, app_nil_r; cbn [app];
    (eexists _, _; split; [reflexivity|]; eexists; reflexivity).
Qed.

(** A speech result leaves the store as it is, or appends one exchange
    to the transcript of its call. *)
Lemma handle_speech_store (x : ambient) (callSid : string)
    (userSpeech confidence : option string) (w : world) :
  let w' := snd (handle_speech cfg decode x callSid userSpeech confidence w) in
  conversationHistory w' = conversationHistory w
  \/ exists history u a,
       conversationHistory w !! callSid = Some history
       /\ role u = "user" /\ role a = "assistant"
       /\ conversationHistory w' = <[callSid := history ++ [u; a]]> (conversationHistory w).
Proof.
  cbn zeta. destruct (speech_accepted userSpeech callSid w) eqn:Hacc.
  - destruct userSpeech as [speech|]; [|discriminate].
    apply speech_accepted_inv in Hacc as (Hspeech & Hsid & history & Hknown).
    set (c := correction_of (openai_create x (correction_request speech)) speech).
    set (messages :=
           messagesWithLanguage cfg (languageName_of (language c)) history (correctedText c)).
    destruct (reply_content (openai_create x (turn_request cfg messages)))
      as [content|] eqn:Hreply.
    + right.
      destruct (handle_speech_turn_answers cfg decode x callSid speech confidence w
                  history Hspeech Hsid Hknown content Hreply)
        as (entries & tw & w' & Hvoice & ->).
      match type of Hvoice with
      | voice_reply ?c ?d ?x ?cs ?g ?dl ?ln ?W = _ =>
          destruct (voice_reply_total c d x cs g dl ln W) as (tw' & w'' & Hv & Hh & _)
      end.
      rewrite Hvoice in Hv. injection Hv as <- <-. cbn [snd conversationHistory] in *.
      exists history,
        (Turn "user" (Some (correctedText c)) (Some (UserMeta (language c) speech))),
        (Turn "assistant" content (Some (AssistantMeta (language c)))).
      split; [exact Hknown|]. split; [reflexivity|]. split; [reflexivity|]. exact Hh.
    + left.
      destruct (handle_speech_turn_fails cfg decode x callSid speech confidence w history
                  Hspeech Hsid Hknown Hreply) as (w' & -> & [entries ->]).
      reflexivity.
  - left.
    destruct (handle_speech_not_accepted x callSid userSpeech confidence w Hacc)
      as (twiml & w' & -> & [entries ->]).
    reflexivity.
Qed.

(** A call-status event leaves the store as it is or deletes its call. *)
Lemma call_status_store (callSid callStatus : string) (w : world) :
  let w' := snd (call_status callSid callStatus w) in
  conversationHistory w' = conversationHistory w
  \/ conversationHistory w' = delete callSid (conversationHistory w).
Proof.
  cbn zeta. destruct (terminal_status callStatus) eqn:Hterm.
  - right. destruct (call_status_run callSid callStatus w Hterm) as [entries ->].
    reflexivity.
  - left. destruct w as [h q t n f l s]. unfold call_status. rewrite Hterm. reflexivity.
Qed.

Lemma fire_timer_store (timeoutId : nat) : keeps_history (fire_timer timeoutId).
Proof.
  intros w. destruct w as [h q t n f l s]. unfold fire_timer. run.
  destruct (t !! timeoutId) as [[filePath delayMs]|]; run; [|reflexivity].
  rewrite cleanup_callback_run. reflexivity.
Qed.

(** Every stored transcript has the shape that the phone channel builds. *)
Lemma reachable_shape (w : world) :
  reachable cfg decode w ->
  map_Forall (fun _ h => transcript_shape cfg h = true) (conversationHistory w).
Proof.
  induction 1 as [|w ev Hw IH]; [apply map_Forall_empty|].
  destruct ev as [callSid|x callSid userSpeech confidence|callSid callStatus
                 |x sessionHeader message clientHistory|timeoutId];
    cbn [handle]; try unfold bind at 1.
  - pose proof (twilio_voice_run callSid w) as Hrun.
    destruct (twilio_voice cfg callSid w) as [[r|e] w']; cbn [snd ret] in *;
      rewrite Hrun; apply map_Forall_insert_2; auto using shape_start.
  - pose proof (handle_speech_store x callSid userSpeech confidence w) as Hrun.
    cbn zeta in Hrun.
    destruct (handle_speech cfg decode x callSid userSpeech confidence w) as [[r|e] w'];
      cbn [snd ret] in *;
      (destruct Hrun as [->|(history & u & a & Hknown & Hu & Ha & ->)]; [exact IH|];
       apply map_Forall_insert_2; [|exact IH];
       apply shape_exchange; [exact (IH _ _ Hknown)|exact Hu|exact Ha]).
  - pose proof (call_status_store callSid callStatus w) as Hrun. cbn zeta in Hrun.
    destruct (call_status callSid callStatus w) as [[r|e] w']; cbn [snd ret] in *;
      (destruct Hrun as [->| ->]; [exact IH|apply map_Forall_delete, IH]).
  - pose proof (keeps_chat cfg decode x sessionHeader message clientHistory w) as Hrun.
    destruct (chat cfg decode x sessionHeader message clientHistory w) as [[r|e] w'];
      cbn [snd ret] in *; rewrite Hrun; exact IH.
  - rewrite fire_timer_store. exact IH.
Qed.

End StoreEffects.

(** C6. In every state that the server reaches through call starts, speech
    results, call-status events (and web chats and timers), each stored
    transcript starts with the persona prompt as its only system turn and
    continues with user and assistant turns in alternation, so that no two
    neighbouring turns have the same role; the system message built for a
    turn, persona prompt plus language instruction, is in no stored
    transcript. *)
Theorem stored_transcript_alternates (cfg : config) (decode : string -> string)
    (w : world) (callSid : string) (h : list turn) :
  reachable cfg decode w ->
  conversationHistory w !! callSid = Some h ->
  alternating h = true
  /\ (exists turns,
        h = Turn "system" (Some (systemPrompt cfg)) None :: turns
        /\ forall m, m ∈ turns -> role m = "user" \/ role m = "assistant")
  /\ forall languageName m,
       role m = "system" -> content m = Some (phone_system_content cfg languageName) ->
       m ∉ h.
Proof.
  intros Hreach Hh. pose proof (reachable_shape cfg decode w Hreach _ _ Hh) as Hshape.
  cbn beta in Hshape. split; [exact (shape_alternating cfg h Hshape)|]. split.
  - destruct h as [|first rest]; [discriminate|]. cbn in Hshape.
    apply andb_prop in Hshape as [Hfirst Hrest].
    apply bool_decide_eq_true in Hfirst as ->.
    exists rest. split; [reflexivity|]. apply exchanges_roles, Hrest.
  - intros languageName m Hrole Hcontent Hin.
    rewrite (shape_system_turns cfg h Hshape m Hin Hrole) in Hcontent.
    cbn in Hcontent. injection Hcontent as Hcontent.
    exact (phone_system_content_synthetic cfg languageName (eq_sym Hcontent)).
Qed.

(** *** Computations that differ only in what they log *)

Lemma same_but_logs_refl (w : world) : same_but_logs w w.
Proof. repeat split. Qed.

(** Proves [same_but_logs] of two updated states from [same_but_logs] of
    the states. *)
Ltac same_update :=
  intros [? ? ? ? ? ? ?] [? ? ? ? ? ? ?] (? & ? & ? & ? & ? & ?);
  cbn in *; subst; repeat split.

Section Alike.

Context {A B : Type}.

Lemma alike_ret (a : A) : alike (ret a) (ret a).
Proof. intros w1 w2 H. split; [reflexivity|exact H]. Qed.

Lemma alike_throw (e : JS.exn) : alike (throw (A := A) e) (throw e).
Proof. intros w1 w2 H. split; [reflexivity|exact H]. Qed.

Lemma alike_await (r : JS.result A) : alike (await r) (await r).
Proof. intros w1 w2 H. split; [reflexivity|exact H]. Qed.

Lemma alike_gets (f : world -> A) :
  (forall w1 w2, same_but_logs w1 w2 -> f w1 = f w2) -> alike (gets f) (gets f).
Proof. intros Hf w1 w2 H. split; [cbn; f_equal; apply Hf, H|exact H]. Qed.

Lemma alike_bind (m1 m2 : M A) (k1 k2 : A -> M B) :
  alike m1 m2 -> (forall a, alike (k1 a) (k2 a)) -> alike (bind m1 k1) (bind m2 k2).
Proof.
  intros Hm Hk w1 w2 H. unfold bind. destruct (Hm w1 w2 H) as [Hr Hw].
  destruct (m1 w1) as [r1 w1'], (m2 w2) as [r2 w2']. cbn [fst snd] in *. subst r2.
  destruct r1 as [a|e]; [apply Hk, Hw|]. split; [reflexivity|exact Hw].
Qed.

Lemma alike_try_catch (b1 b2 : M A) (h1 h2 : JS.exn -> M A) :
  alike b1 b2 -> (forall e, alike (h1 e) (h2 e)) ->
  alike (try_catch b1 h1) (try_catch b2 h2).
Proof.
  intros Hm Hk w1 w2 H. unfold try_catch. destruct (Hm w1 w2 H) as [Hr Hw].
  destruct (b1 w1) as [r1 w1'], (b2 w2) as [r2 w2']. cbn [fst snd] in *. subst r2.
  destruct r1 as [a|e]; [|apply Hk, Hw]. split; [reflexivity|exact Hw].
Qed.

End Alike.

Lemma alike_modify (f : world -> world) :
  (forall w1 w2, same_but_logs w1 w2 -> same_but_logs (f w1) (f w2)) ->
  alike (modify f) (modify f).
Proof. intros Hf w1 w2 H. split; [reflexivity|apply Hf, H]. Qed.

(** Two log calls are alike whatever they log. *)
Lemma alike_log (l1 l2 : level) (msg1 msg2 : string) (m1 m2 : list (string * string)) :
  alike (log l1 msg1 m1) (log l2 msg2 m2).
Proof. intros w1 w2 H. split; [reflexivity|]. revert w1 w2 H. same_update. Qed.

Lemma alike_writeFileSync (p data : string) :
  alike (writeFileSync p data) (writeFileSync p data).
Proof. apply alike_modify. same_update. Qed.

Lemma alike_scheduleAudioCleanup (filePath : string) (delayMs : N) :
  alike (scheduleAudioCleanup filePath delayMs) (scheduleAudioCleanup filePath delayMs).
Proof. apply alike_modify. same_update. Qed.

Lemma alike_chat_completions_create (x : ambient) (request : chat_request) :
  alike (chat_completions_create x request) (chat_completions_create x request).
Proof.
  apply alike_bind; [|intros _; apply alike_await].
  apply alike_modify. same_update.
Qed.

(** Decomposes a goal [alike m1 m2] along the common structure of [m1]
    and [m2]. *)
Ltac alike :=
  repeat first
    [ apply alike_ret | apply alike_throw | apply alike_await | apply alike_log
    | apply alike_writeFileSync | apply alike_scheduleAudioCleanup
    | apply alike_chat_completions_create
    | apply alike_bind; [|intros ?]
    | apply alike_try_catch; [|intros ?]
    | match goal with
      | |- alike (if ?b then _ else _) (if ?b then _ else _) => destruct b
      | |- alike (match ?o with Some _ => _ | None => _ end)
                 (match ?o with Some _ => _ | None => _ end) => destruct o
      | |- alike (match ?o with [] => _ | _ :: _ => _ end)
                 (match ?o with [] => _ | _ :: _ => _ end) => destruct o
      end
    | progress unfold first_content, content_trim, first_audio, chat_messages ].

Lemma alike_detect (x : ambient) (text : string) :
  alike (detectLanguageAndCorrect x text) (detectLanguageAndCorrect x text).
Proof. unfold detectLanguageAndCorrect. alike. Qed.

(** The session identifier of a web chat flows into log lines only. *)
Lemma alike_chat_sessions (cfg : config) (decode : string -> string) (x : ambient)
    (header1 header2 : option string) (message : string)
    (clientHistory : option (list turn)) :
  alike (chat cfg decode x header1 message clientHistory)
        (chat cfg decode x header2 message clientHistory).
Proof.
  unfold chat, chat_reply, chat_synthesis.
  repeat first [apply alike_detect | progress alike].
Qed.

(** C9. Two web chat requests with the same body and different
    x-session-id headers, served in the same state by the same providers,
    get the same response (the same JSON, success or failure) and leave
    the same state behind, logs apart. *)
Theorem chat_session_header_only_logged (cfg : config) (decode : string -> string)
    (x : ambient) (header1 header2 : option string) (message : string)
    (clientHistory : option (list turn)) (w : world) :
  let first := chat cfg decode x header1 message clientHistory w in
  let second := chat cfg decode x header2 message clientHistory w in
  fst first = fst second /\ same_but_logs (snd first) (snd second).
Proof.
  apply alike_chat_sessions, same_but_logs_refl.
Qed.

(** *** The greeting of the web channel *)

Lemma getSarvamLanguageCode_en : getSarvamLanguageCode "en" = JS.Str "en-IN".
Proof. reflexivity. Qed.

(** C2 (amended). A web chat whose message is the greeting sentinel is
    answered, whatever the client history, with status 200, the language
    code "en" and the canned greeting, and no completion request is sent.
    The audio URL is null when no synthesis key is configured, and when the
    synthesis call fails or returns no audio payload; otherwise it is the
    relative URL of the audio file synthesized for the greeting. *)
Theorem chat_greeting_reply (cfg : config) (decode : string -> string) (x : ambient)
    (sessionHeader : option string) (clientHistory : option (list turn)) (w : world) :
  let request := sarvam_request cfg x (Some canned_greeting) (JS.Str "en-IN") in
  let audioUrl :=
    if sarvam_configured x then
      match audio_payload (axios_post x request) with
      | Some _ => Some ("/audio/" +:+ uuidv4 x +:+ ".wav")
      | None => None
      end
    else None in
  let result := chat cfg decode x sessionHeader greeting_sentinel clientHistory w in
  fst result = JS.Ok (Json 200 (ChatReply "en" (Some canned_greeting) audioUrl))
  /\ sent (snd result) = sent w
  /\ conversationHistory (snd result) = conversationHistory w.
Proof.
  cbn zeta. destruct w as [h q t n f l s].
  unfold chat, chat_reply. rewrite String.eqb_refl. run.
  destruct (sarvam_configured x); run; [|done].
  unfold chat_synthesis, first_audio, scheduleAudioCleanup, audio_payload.
  rewrite getSarvamLanguageCode_en. run.
  destruct (axios_post x _) as [r|e]; run; [|done].
  destruct (audios r) as [[|a rest]|]; run; cbn [head JS.truthy_str]; try done.
  destruct (String.eqb a EmptyString); cbn [negb]; run; done.
Qed.

(* ===================================================================== *)
(** ** The properties at work on sample requests *)
(* ===================================================================== *)

Lemma detectLanguageAndCorrect_fails_soft_witness :
  exists r w',
    detectLanguageAndCorrect
      (Sample.world_with Sample.untagged Sample.unreachable (Sample.audio []) None)
      "I like drawing" empty_world = (JS.Ok r, w')
    /\ language r = "en" /\ correctedText r = "I like drawing".
Proof.
  destruct (detectLanguageAndCorrect_fails_soft
              (Sample.world_with Sample.untagged Sample.unreachable (Sample.audio []) None)
              "I like drawing" empty_world) as (r & w' & Hrun & _ & _ & Htags).
  exists r, w'. split; [exact Hrun|].
  destruct (Htags _ eq_refl) as [Hlanguage Hcorrected].
  split; [apply Hlanguage|apply Hcorrected]; reflexivity.
Defined.

Example detect_unreachable :
  fst (detectLanguageAndCorrect
         (Sample.world_with Sample.unreachable Sample.unreachable (Sample.audio []) None)
         "muje droing pasand he" empty_world)
  = JS.Ok (Correction "en" "muje droing pasand he").
Proof. reflexivity. Qed.

Lemma getSarvamLanguageCode_table_or_default_witness :
  languageMapping !! "ta" = Some "ta-IN"
  /\ getSarvamLanguageCode "ta" = JS.Str "ta-IN"
  /\ languageMapping !! "fr" = None
  /\ getSarvamLanguageCode "fr" = JS.Str "en-IN".
Proof.
  destruct getSarvamLanguageCode_table_or_default as (_ & Hkey & Hdefault & _).
  split; [reflexivity|]. split; [apply Hkey; reflexivity|]. split; [reflexivity|].
  apply (Hdefault
           (Sample.world_with Sample.tagged_french Sample.unreachable (Sample.audio []) None)
           "jaime desiner" empty_world (Correction "fr" "j'aime dessiner") _ eq_refl).
  reflexivity.
Defined.

(** A key that no detection produces reads an inherited property. *)
Example getSarvamLanguageCode_inherited :
  getSarvamLanguageCode "constructor" = JS.Function "Object".
Proof. reflexivity. Qed.

Lemma call_status_terminal_idempotent_witness :
  terminal_status "completed" = true
  /\ conversationHistory Sample.started !! Sample.callSid
     = Some [Turn "system" (Some (systemPrompt Sample.cfg)) None]
  /\ conversationHistory (snd (call_status Sample.callSid "completed" Sample.started))
     !! Sample.callSid = None.
Proof.
  split; [reflexivity|]. split; [reflexivity|].
  apply (call_status_terminal_idempotent Sample.callSid "completed" Sample.started).
  reflexivity.
Defined.

Lemma cleanup_callback_idempotent_witness :
  files empty_world !! "/srv/app/public/audio/a.wav" = None
  /\ files (snd (cleanup_callback "/srv/app/public/audio/a.wav" empty_world))
     = files empty_world.
Proof.
  split; [reflexivity|].
  apply (cleanup_callback_idempotent "/srv/app/public/audio/a.wav" empty_world).
  reflexivity.
Defined.

Lemma handle_speech_appends_user_and_assistant_witness :
  conversationHistory
    (snd (handle_speech Sample.cfg Sample.decode Sample.answering Sample.callSid
            (Some "I like drawing") (Some "0.93") Sample.started))
  !! Sample.callSid
  = Some [ Turn "system" (Some (systemPrompt Sample.cfg)) None;
           Turn "user" (Some "I like drawing") (Some (UserMeta "en" "I like drawing"));
           Turn "assistant" (Some Sample.advice) (Some (AssistantMeta "en")) ].
Proof.
  apply (handle_speech_appends_user_and_assistant Sample.cfg Sample.decode
           Sample.answering Sample.callSid "I like drawing" (Some "0.93") Sample.started
           [Turn "system" (Some (systemPrompt Sample.cfg)) None] (Some Sample.advice));
    [discriminate|discriminate|reflexivity|reflexivity].
Defined.

Lemma stored_transcript_alternates_witness :
  alternating
    [ Turn "system" (Some (systemPrompt Sample.cfg)) None;
      Turn "user" (Some "I like drawing") (Some (UserMeta "en" "I like drawing"));
      Turn "assistant" (Some Sample.advice) (Some (AssistantMeta "en")) ] = true.
Proof.
  apply (stored_transcript_alternates Sample.cfg Sample.decode Sample.exchanged
           Sample.callSid).
  - apply reachable_step, reachable_step, reachable_start.
  - reflexivity.
Defined.



Example handle_speech_null_reply_empty_gather :
  fst (handle_speech Sample.cfg Sample.decode Studio.wordless Sample.callSid
         (Some "I like drawing") (Some "0.93") Sample.started)
  = JS.Ok (Xml
      [ Gather (GatherAttrs "speech" ("/handle-speech?callSid=" +:+ Sample.callSid)
                  "auto" (twilio_language (twilioConfig Sample.cfg)) true)
          [] ]).
Proof. vm_compute. reflexivity. Qed.

Lemma handle_speech_completion_failure_keeps_history_witness :
  conversationHistory
    (snd (handle_speech Sample.cfg Sample.decode Sample.failing Sample.callSid
            (Some "I like drawing") (Some "0.93") Sample.started))
  = conversationHistory Sample.started.
Proof.
  apply (handle_speech_completion_failure_keeps_history Sample.cfg Sample.decode
           Sample.failing Sample.callSid "I like drawing" (Some "0.93") Sample.started
           [Turn "system" (Some (systemPrompt Sample.cfg)) None]
           (JS.Rejection "connect ECONNREFUSED"));
    [discriminate|discriminate|reflexivity|reflexivity].
Defined.

(** With the synthesis key configured and a provider that returns audio,
    the greeting comes with an audio URL: the URL is not always null. *)
Lemma chat_greeting_audio_url_not_null :
  ~ (forall (x : ambient) (clientHistory : option (list turn)),
       exists detected,
         fst (chat Sample.cfg Sample.decode x (Some "web-7") "__GREETING__"
                clientHistory empty_world)
         = JS.Ok (Json 200 (ChatReply detected (Some canned_greeting) None))).
Proof.
  intros claim. destruct (claim Sample.voiced (Some [])) as [detected H].
  vm_compute in H. discriminate H.
Qed.

Example chat_greeting_voiced :
  fst (chat Sample.cfg Sample.decode Sample.voiced (Some "web-7") "__GREETING__"
         (Some []) empty_world)
  = JS.Ok (Json 200
      (ChatReply "en" (Some canned_greeting)
         (Some "/audio/1b9d6bcd-bbfd-4b2d-9b5d-ab8dfbbd4bed.wav"))).
Proof. vm_compute. reflexivity. Qed.

Lemma chat_greeting_reply_witness :
  fst (chat Sample.cfg Sample.decode Sample.answering None "__GREETING__" None empty_world)
  = JS.Ok (Json 200 (ChatReply "en" (Some canned_greeting) None)).
Proof.
  apply (chat_greeting_reply Sample.cfg Sample.decode Sample.answering None None
           empty_world).
Defined.

(** The session header does reach the logs. *)
Example chat_sessions_logged_apart :
  logs (snd (chat Sample.cfg Sample.decode Sample.answering (Some "web-7")
               "__GREETING__" None empty_world))
  <> logs (snd (chat Sample.cfg Sample.decode Sample.answering (Some "web-8")
                  "__GREETING__" None empty_world)).
Proof. vm_compute. discriminate. Qed.

(** Without a client history the spread throws and the chat answers 500. *)
Example chat_without_history :
  fst (chat Sample.cfg Sample.decode Sample.answering None "I like drawing" None
         empty_world)
  = JS.Ok (Json 500 (ErrorBody "Failed to process message" "clientHistory is not iterable")).
Proof. vm_compute. reflexivity. Qed.

(* ===================================================================== *)
(** ** Further properties of the phone channel *)
(* ===================================================================== *)

(** X1. Without speech, with empty speech, with an empty call identifier
    or for a call that the store does not know, [/handle-speech] answers
    with the re-prompt (a speech [<Gather>], then a goodbye and a hangup
    for the case that nothing is heard again); it sends no completion
    request and changes nothing but the logs. *)
Theorem handle_speech_reprompts_unheard_or_unknown
    (cfg : config) (decode : string -> string) (x : ambient) (callSid : string)
    (userSpeech confidence : option string) (w : world) :
  userSpeech = None \/ userSpeech = Some EmptyString \/ callSid = EmptyString
  \/ conversationHistory w !! callSid = None ->
  exists w',
    handle_speech cfg decode x callSid userSpeech confidence w
    = (JS.Ok (Xml
         [ Gather (GatherAttrs "speech" ("/handle-speech?callSid=" +:+ callSid)
                     (twilio_speechTimeout (twilioConfig cfg))
                     (twilio_language (twilioConfig cfg)) true)
             [Say (Some "I did not catch that. Please speak clearly after the tone.")];
           SayVerb "I could not hear you. Please call back. Goodbye.";
           Hangup ]), w')
    /\ logged_and_sent [] w w'.
Proof.
  intros Hcase.
  assert (Hno : speech_accepted userSpeech callSid w = false).
  { unfold speech_accepted.
    destruct Hcase as [->|[->|[->|Hnone]]]; cbn; try reflexivity.
    - rewrite andb_false_r. reflexivity.
    - rewrite Hnone, bool_decide_eq_false_2 by (intros [? ?]; discriminate).
      apply andb_false_r. }
  clear Hcase. destruct w as [h q t n f l s].
  unfold handle_speech, logged_and_sent, no_speech. run.
  unfold speech_accepted in *. cbn [conversationHistory] in *. rewrite Hno.
  destruct userSpeech; run; rewrite <- !app_assoc, app_nil_r; cbn [app];
    (eexists; split; [reflexivity|]; eexists; reflexivity).
Qed.



(** X3. A call start stores the one-entry transcript (the persona prompt
    as system turn) for its call whatever the store held for that
    identifier, and touches no other session. For an identifier that was
    not in the store, a terminal call-status event after the start brings
    the store back to what it was before the call. *)
Theorem twilio_voice_starts_afresh (cfg : config) (callSid : string) (w : world) :
  let started := snd (twilio_voice cfg callSid w) in
  conversationHistory started !! callSid
  = Some [Turn "system" (Some (systemPrompt cfg)) None]
  /\ (forall other, other <> callSid ->
        conversationHistory started !! other = conversationHistory w !! other)
  /\ (conversationHistory w !! callSid = None ->
      forall callStatus, terminal_status callStatus = true ->
        conversationHistory (snd (call_status callSid callStatus started))
        = conversationHistory w).
Proof.
  cbn zeta. rewrite twilio_voice_run.
  split; [apply lookup_insert_eq|]. split.
  - intros other Hne. apply lookup_insert_ne. done.
  - intros Hfresh callStatus Hterm.
    destruct (call_status_run callSid callStatus (snd (twilio_voice cfg callSid w)) Hterm)
      as [entries ->].
    cbn [snd conversationHistory]. rewrite twilio_voice_run.
    rewrite delete_insert_eq. apply delete_id, Hfresh.
Qed.

Lemma to_lower_letter (c : ascii) :
  Text.is_letter c = true -> Text.is_lower (Text.to_lower c) = true.
Proof.
  destruct c as [[] [] [] [] [] [] [] []]; vm_compute; intros H;
    first [reflexivity | discriminate H].
Qed.

Lemma two_letters_lower (s c : string) :
  Text.two_letters s = Some c ->
  string_forall Text.is_lower (Text.toLowerCase c) = true.
Proof.
  destruct s as [|a [|b s]]; cbn; try discriminate.
  destruct (Text.is_letter a) eqn:Ha; [|discriminate].
  destruct (Text.is_letter b) eqn:Hb; [|discriminate].
  intros [= <-]. cbn [andb Text.toLowerCase string_forall].
  rewrite !to_lower_letter by assumption. reflexivity.
Qed.

Lemma match_language_lower (s c : string) :
  Text.match_language s = Some c ->
  string_forall Text.is_lower (Text.toLowerCase c) = true.
Proof.
  unfold Text.match_language. intros H.
  apply search_inv in H as [u H].
  destruct (Text.literal_ci "LANGUAGE:" u) as [v|]; [|discriminate].
  cbn in H. apply spaces_then_inv in H as [t H].
  eapply two_letters_lower, H.
Qed.

(** X4. Whatever the completion provider replies, the language code that
    [detectLanguageAndCorrect] returns consists of exactly two lower-case
    ASCII letters, and the language name derived from it for the system
    message is the name listed for that code, or "English" for a code that
    is not listed: never anything else. *)
Theorem detected_language_is_two_lower_case_letters
    (x : ambient) (text : string) (w : world) (r : correction) (w' : world) :
  detectLanguageAndCorrect x text w = (JS.Ok r, w') ->
  String.length (language r) = 2
  /\ string_forall Text.is_lower (language r) = true
  /\ languageName_of (language r) = default "English" (languageNames !! language r).
Proof.
  intros Hrun. destruct (detect_run x text w) as (w1 & Hrun' & _).
  rewrite Hrun in Hrun'. injection Hrun' as -> _.
  split; [apply detected_code_length|]. split.
  - unfold correction_of. destruct (reply_text _) as [s|]; [|reflexivity].
    cbn. destruct (Text.match_language (Text.trim s)) as [c|] eqn:E; [|reflexivity].
    eapply match_language_lower, E.
  - unfold languageName_of, JS.get.
    destruct (languageNames !! _) as [name|] eqn:E.
    + cbn [JS.or_else default].
      apply elem_of_list_to_map_2 in E.
      repeat match goal with
             | H : _ ∈ _ :: _ |- _ =>
                 apply elem_of_cons in H as [[= _ ->]|H]; [reflexivity|]
             | H : _ ∈ [] |- _ => inversion H
             end.
    + rewrite prototype_get_two_chars by apply detected_code_length. reflexivity.
Qed.

(* ===================================================================== *)
(** ** Further properties of the web channel *)
(* ===================================================================== *)

Section WebTurn.

Variables (cfg : config) (decode : string -> string) (x : ambient).
Variables (sessionHeader : option string) (message : string) (w : world).

Hypothesis not_greeting : message <> greeting_sentinel.

Let c := correction_of (openai_create x (correction_request message)) message.

(** A chat without a client history: the spread throws after the
    correction, and the outer [catch] answers. *)
Lemma chat_without_history_run :
  exists details w',
    chat cfg decode x sessionHeader message None w
    = (JS.Ok (Json 500 (ErrorBody "Failed to process message" details)), w')
    /\ logged_and_sent [correction_request message] w w'.
Proof.
  apply String.eqb_neq in not_greeting.
  destruct w as [h q t n f l s]. unfold chat, chat_reply, logged_and_sent.
  rewrite not_greeting. run.
  match goal with
  | |- context [detectLanguageAndCorrect ?x ?t ?W] =>
      destruct (detect_run x t W) as (w1 & -> & [entries ->])
  end.
  unfold chat_messages. run. rewrite <- !app_assoc. cbn [app].
  eexists _, _. split; [reflexivity|]. eexists. reflexivity.
Qed.

Variable history : list turn.

Let messages :=
  [Turn "system" (Some (web_system_content cfg (languageName_of (language c)))) None]
  ++ history ++ [Turn "user" (Some (correctedText c)) None].
Let reply := openai_create x (turn_request cfg messages).

(** The completion call of a chat fails: the outer [catch] answers with
    the message of the error. *)
Lemma chat_completion_rejected_run (e : JS.exn) :
  reply = JS.Throw e ->
  exists w',
    chat cfg decode x sessionHeader message (Some history) w
    = (JS.Ok (Json 500 (ErrorBody "Failed to process message" (JS.message e))), w')
    /\ logged_and_sent [correction_request message; turn_request cfg messages] w w'.
Proof.
  intros Hreply. apply String.eqb_neq in not_greeting.
  destruct w as [h q t n f l s]. unfold chat, chat_reply, logged_and_sent.
  rewrite not_greeting. run.
  match goal with
  | |- context [detectLanguageAndCorrect ?x ?t ?W] =>
      destruct (detect_run x t W) as (w1 & -> & [entries ->])
  end.
  unfold chat_messages. fold c. run.
  change (Turn "system" (Some (web_system_content cfg (languageName_of (language c)))) None
            :: history ++ [Turn "user" (Some (correctedText c)) None]) with messages.
  fold reply. rewrite Hreply. run. rewrite <- !app_assoc. cbn [app].
  eexists. split; [reflexivity|]. eexists. reflexivity.
Qed.

(** The completion call of a chat answers: the reply goes through the
    synthesis step and into the JSON response. *)
Lemma chat_answered_run (content : option string) :
  reply_content reply = Some content ->
  let request := sarvam_request cfg x content (getSarvamLanguageCode (language c)) in
  let audioFilePath := path_join (audioDir cfg) (uuidv4 x +:+ ".wav") in
  let payload := if sarvam_configured x then audio_payload (axios_post x request) else None in
  exists entries,
    chat cfg decode x sessionHeader message (Some history) w
    = (JS.Ok (Json 200
         (ChatReply (language c) content
            match payload with
            | Some _ => Some ("/audio/" +:+ uuidv4 x +:+ ".wav")
            | None => None
            end)),
       World (conversationHistory w)
         match payload with
         | Some _ => <[audioFilePath := timer_seq w]> (audioCleanupQueue w)
         | None => audioCleanupQueue w
         end
         match payload with
         | Some _ => <[timer_seq w := (audioFilePath, 60000%N)]> (timers w)
         | None => timers w
         end
         match payload with
         | Some _ => S (timer_seq w)
         | None => timer_seq w
         end
         match payload with
         | Some a => <[audioFilePath := decode a]> (files w)
         | None => files w
         end
         (logs w ++ entries)
         (sent w ++ [correction_request message; turn_request cfg messages])).
Proof.
  intros Hreply. cbn zeta. apply String.eqb_neq in not_greeting.
  destruct w as [h q t n f l s]. unfold chat, chat_reply.
  rewrite not_greeting. run.
  match goal with
  | |- context [detectLanguageAndCorrect ?x ?t ?W] =>
      destruct (detect_run x t W) as (w1 & -> & [entries ->])
  end.
  unfold chat_messages. fold c. run.
  change (Turn "system" (Some (web_system_content cfg (languageName_of (language c)))) None
            :: history ++ [Turn "user" (Some (correctedText c)) None]) with messages.
  fold reply. unfold reply_content in Hreply.
  destruct reply as [cm|e]; [|discriminate]. run.
  destruct (choices cm) as [|ch rest]; [discriminate|]. run.
  destruct (choice_message ch) as [m|]; [|discriminate]. run.
  cbn in Hreply. injection Hreply as ->.
  destruct (sarvam_configured x); run;
    [|rewrite <- !app_assoc; cbn [app]; eexists; reflexivity].
  unfold chat_synthesis, first_audio, scheduleAudioCleanup, audio_payload. run.
  destruct (axios_post x _) as [r|e]; run;
    [|rewrite <- !app_assoc; cbn [app]; eexists; reflexivity].
  destruct (audios r) as [[|a rest']|]; run; cbn [head JS.truthy_str default];
    try (rewrite <- !app_assoc; cbn [app]; eexists; reflexivity).
  destruct (String.eqb a EmptyString); cbn [negb]; run;
    rewrite <- !app_assoc; cbn [app]; eexists; reflexivity.
Qed.

End WebTurn.

(** X5. A web chat that is not the greeting, with a client history, whose
    completion call answers: the request sent carries exactly the system
    message (the persona prompt followed by the language instruction of
    the web channel), then the client's history as supplied, then one user
    message with the corrected text, and it goes out with the configured
    model, temperature and output bound; the response has status 200, the
    detected language code and the provider's reply as it came; the
    session store is not touched. *)
Theorem chat_forwards_history_and_reply
    (cfg : config) (decode : string -> string) (x : ambient)
    (sessionHeader : option string) (message : string) (history : list turn)
    (w : world) (content : option string) :
  message <> greeting_sentinel ->
  let correction :=
    ChatRequest "gpt-4o-mini"
      [ Turn "system" (Some correctionPrompt) None; Turn "user" (Some message) None ]
      0 150 in
  let c := correction_of (openai_create x correction) message in
  let languageName := default "English" (languageNames !! language c) in
  let instruction := "

CRITICAL LANGUAGE INSTRUCTION:
The user is speaking in " +:+ languageName +:+ ". You MUST respond ONLY in " +:+ languageName +:+ ".
- Write your ENTIRE response in " +:+ languageName +:+ " language using the appropriate script (Devanagari for Hindi/Marathi, Tamil script for Tamil, etc.)
- Do NOT use English at all
- Do NOT mix languages
- If you don't know how to say something in " +:+ languageName +:+ ", still try your best to use " +:+ languageName +:+ "

This is MANDATORY. Respond in " +:+ languageName +:+ " ONLY." in
  let messages :=
    [Turn "system" (Some (systemPrompt cfg +:+ instruction)) None]
    ++ history
    ++ [Turn "user" (Some (correctedText c)) None] in
  let request :=
    ChatRequest (openai_model (openAIConfig cfg)) messages
      (openai_temperature (openAIConfig cfg)) (openai_maxTokens (openAIConfig cfg)) in
  reply_content (openai_create x request) = Some content ->
  let result := chat cfg decode x sessionHeader message (Some history) w in
  (exists audioUrl, fst result = JS.Ok (Json 200 (ChatReply (language c) content audioUrl)))
  /\ sent (snd result) = sent w ++ [correction; request]
  /\ conversationHistory (snd result) = conversationHistory w.
Proof.
  intros Hmessage correction c languageName.
  assert (Hname : languageName = languageName_of (language c))
    by (symmetry; apply languageName_of_detected).
  clearbody languageName. subst languageName.
  intros instruction messages request Hreply result.
  destruct (chat_answered_run cfg decode x sessionHeader message w Hmessage history
              content Hreply) as [entries Hrun].
  subst result. rewrite Hrun. cbn [fst snd sent conversationHistory]. eauto.
Qed.

(** X6. In such a chat the synthesis step decides the audio URL and the
    files. With a configured key and an audio payload the decoded audio is
    written to [<audioDir>/<uuid>.wav], the response carries
    [/audio/<uuid>.wav], and the file is registered in the cleanup queue
    with a fresh timer of 60000 ms. In every other case (no key, rejected
    call, no payload) the response still has status 200, with a null audio
    URL, and files, queue and timers are as before. *)
Theorem chat_synthesis_writes_and_schedules_or_skips
    (cfg : config) (decode : string -> string) (x : ambient)
    (sessionHeader : option string) (message : string) (history : list turn)
    (w : world) (content : option string) :
  message <> greeting_sentinel ->
  let c := correction_of (openai_create x (correction_request message)) message in
  let messages :=
    [Turn "system" (Some (web_system_content cfg (languageName_of (language c)))) None]
    ++ history ++ [Turn "user" (Some (correctedText c)) None] in
  reply_content (openai_create x (turn_request cfg messages)) = Some content ->
  let request := sarvam_request cfg x content (getSarvamLanguageCode (language c)) in
  let audioFilePath := audioDir cfg +:+ "/" +:+ uuidv4 x +:+ ".wav" in
  let result := chat cfg decode x sessionHeader message (Some history) w in
  (forall a,
     sarvam_configured x = true -> audio_payload (axios_post x request) = Some a ->
     fst result
     = JS.Ok (Json 200 (ChatReply (language c) content
                          (Some ("/audio/" +:+ uuidv4 x +:+ ".wav"))))
     /\ files (snd result) = <[audioFilePath := decode a]> (files w)
     /\ audioCleanupQueue (snd result) !! audioFilePath = Some (timer_seq w)
     /\ timers (snd result) !! timer_seq w = Some (audioFilePath, 60000%N))
  /\ (sarvam_configured x = false \/ audio_payload (axios_post x request) = None ->
      fst result = JS.Ok (Json 200 (ChatReply (language c) content None))
      /\ files (snd result) = files w
      /\ audioCleanupQueue (snd result) = audioCleanupQueue w
      /\ timers (snd result) = timers w).
Proof.
  intros Hmessage c messages Hreply request audioFilePath result.
  destruct (chat_answered_run cfg decode x sessionHeader message w Hmessage history
              content Hreply) as [entries Hrun].
  subst result. rewrite Hrun. clear Hrun.
  cbn [fst snd files audioCleanupQueue timers]. fold c request. split.
  - intros a -> ->. rewrite !lookup_insert_eq. done.
  - intros [-> | Hnone]; [done|]. destruct (sarvam_configured x); [|done].
    rewrite Hnone. done.
Qed.

(** X7. A web chat that is not the greeting and comes without a client
    history is answered with status 500 and the error "Failed to process
    message"; by then the correction request has been sent, and nothing
    else: no turn request, no file, no registration. *)
Theorem chat_without_history_answers_500
    (cfg : config) (decode : string -> string) (x : ambient)
    (sessionHeader : option string) (message : string) (w : world) :
  message <> greeting_sentinel ->
  let result := chat cfg decode x sessionHeader message None w in
  (exists details,
     fst result = JS.Ok (Json 500 (ErrorBody "Failed to process message" details)))
  /\ sent (snd result) = sent w ++ [correction_request message]
  /\ files (snd result) = files w
  /\ audioCleanupQueue (snd result) = audioCleanupQueue w.
Proof.
  intros Hmessage result.
  destruct (chat_without_history_run cfg decode x sessionHeader message w Hmessage)
    as (details & w' & Hrun & [entries ->]).
  subst result. rewrite Hrun. cbn [fst snd sent files audioCleanupQueue]. eauto.
Qed.

(** X8. When the completion call of a web chat is rejected, the chat is
    answered with status 500 and the provider's error message as details;
    no synthesis takes place: no file is written and nothing is
    registered. *)
Theorem chat_completion_rejected_answers_500
    (cfg : config) (decode : string -> string) (x : ambient)
    (sessionHeader : option string) (message : string) (history : list turn)
    (w : world) (e : JS.exn) :
  message <> greeting_sentinel ->
  let c := correction_of (openai_create x (correction_request message)) message in
  let messages :=
    [Turn "system" (Some (web_system_content cfg (languageName_of (language c)))) None]
    ++ history ++ [Turn "user" (Some (correctedText c)) None] in
  openai_create x (turn_request cfg messages) = JS.Throw e ->
  let result := chat cfg decode x sessionHeader message (Some history) w in
  fst result = JS.Ok (Json 500 (ErrorBody "Failed to process message" (JS.message e)))
  /\ files (snd result) = files w
  /\ audioCleanupQueue (snd result) = audioCleanupQueue w
  /\ timers (snd result) = timers w.
Proof.
  intros Hmessage c messages Hreply result.
  destruct (chat_completion_rejected_run cfg decode x sessionHeader message w Hmessage
              history e Hreply) as (w' & Hrun & [entries ->]).
  subst result. rewrite Hrun. cbn [fst snd files audioCleanupQueue timers]. done.
Qed.

(** X9. The web chat never changes the session store of the phone
    channel, whatever the message, the history and the providers. *)
Theorem chat_never_touches_sessions
    (cfg : config) (decode : string -> string) (x : ambient)
    (sessionHeader : option string) (message : string)
    (clientHistory : option (list turn)) (w : world) :
  conversationHistory (snd (chat cfg decode x sessionHeader message clientHistory w))
  = conversationHistory w.
Proof. apply keeps_chat. Qed.

(* ===================================================================== *)
(** ** Further properties of the janitor *)
(* ===================================================================== *)

(** X10. When the synthesis provider returns an audio payload,
    [handleSarvamAIResponse] writes the decoded audio to
    [<audioDir>/<uuid>.wav], adds a speech [<Gather>] that plays
    [<PUBLIC_URL>/audio/<uuid>.wav], and registers the file with a fresh
    timer of 30000 ms. When that timer fires the file and its registration
    are gone; if the path was new, disk and queue are again as they were
    before the synthesis. *)
Theorem handleSarvamAIResponse_plays_and_schedules
    (cfg : config) (decode : string -> string) (x : ambient) (twiml : list verb)
    (text : option string) (callSid detectedLanguage : string) (w : world) (a : string) :
  audio_payload
    (axios_post x (sarvam_request cfg x text (getSarvamLanguageCode detectedLanguage)))
  = Some a ->
  let audioFilePath := audioDir cfg +:+ "/" +:+ uuidv4 x +:+ ".wav" in
  let result := handleSarvamAIResponse cfg decode x twiml text callSid detectedLanguage w in
  fst result
  = JS.Ok (twiml ++
      [Gather (GatherAttrs "speech" ("/handle-speech?callSid=" +:+ callSid)
                 (twilio_speechTimeout (twilioConfig cfg))
                 (voice_language (voiceConfig cfg)) true)
         [Play (JS.show_undefined (PUBLIC_URL x) +:+ "/audio/" +:+ uuidv4 x +:+ ".wav")]])
  /\ files (snd result) = <[audioFilePath := decode a]> (files w)
  /\ audioCleanupQueue (snd result) = <[audioFilePath := timer_seq w]> (audioCleanupQueue w)
  /\ timers (snd result) = <[timer_seq w := (audioFilePath, 30000%N)]> (timers w)
  /\ let fired := snd (fire_timer (timer_seq w) (snd result)) in
     files fired !! audioFilePath = None
     /\ audioCleanupQueue fired !! audioFilePath = None
     /\ (files w !! audioFilePath = None -> files fired = files w)
     /\ (audioCleanupQueue w !! audioFilePath = None ->
         audioCleanupQueue fired = audioCleanupQueue w).
Proof.
  intros Hpayload. cbn zeta. destruct w as [h q t n f l s].
  unfold handleSarvamAIResponse, sarvam_playback, scheduleAudioCleanup, first_audio,
    audio_payload in *.
  run.
  destruct (axios_post x _) as [r|e]; [|discriminate]. run.
  destruct (audios r) as [[|a0 rest]|]; try discriminate. run.
  cbn [head JS.truthy_str default].
  destruct (String.eqb a0 EmptyString); [discriminate|]. injection Hpayload as ->.
  cbn [negb]. run.
  split; [reflexivity|]. split; [reflexivity|]. split; [reflexivity|].
  split; [reflexivity|].
  unfold fire_timer. run. rewrite lookup_insert_eq. run.
  rewrite cleanup_callback_run.
  cbn [snd files audioCleanupQueue].
  rewrite !lookup_delete_eq, !delete_insert_eq.
  split; [done|]. split; [done|]. split; apply delete_id.
Qed.

(** X11. When the synthesis call is rejected (a timeout, a network or
    quota error) or its reply has no audio payload,
    [handleSarvamAIResponse] does not throw: it adds a speech [<Gather>]
    that says the text with the telephony provider's own voice when there
    is a text, and that is empty when the text is null; it writes no file
    and registers nothing. *)
Theorem handleSarvamAIResponse_says_text_without_audio
    (cfg : config) (decode : string -> string) (x : ambient) (twiml : list verb)
    (text : option string) (callSid detectedLanguage : string) (w : world) :
  audio_payload
    (axios_post x (sarvam_request cfg x text (getSarvamLanguageCode detectedLanguage)))
  = None ->
  let result := handleSarvamAIResponse cfg decode x twiml text callSid detectedLanguage w in
  fst result
  = JS.Ok (twiml ++
      [Gather (GatherAttrs "speech" ("/handle-speech?callSid=" +:+ callSid)
                 (twilio_speechTimeout (twilioConfig cfg))
                 (twilio_language (twilioConfig cfg)) true)
         match text with
         | Some s => [Say (Some s)]
         | None => []
         end])
  /\ files (snd result) = files w
  /\ audioCleanupQueue (snd result) = audioCleanupQueue w
  /\ timers (snd result) = timers w.
Proof.
  intros Hpayload. cbn zeta. destruct w as [h q t n f l s].
  unfold handleSarvamAIResponse, sarvam_playback, first_audio, audio_payload, gather_say in *.
  run.
  destruct (axios_post x _) as [r|e]; run; [|done].
  destruct (audios r) as [[|a rest]|]; run; cbn [head JS.truthy_str]; try done.
  destruct (String.eqb a EmptyString); [|discriminate]. cbn [negb]. done.
Qed.

(** A timer is one-shot: once it has fired, firing it again changes
    nothing at all, and firing an identifier that is not pending changes
    nothing either. *)
Theorem fire_timer_one_shot (timeoutId : nat) (w : world) :
  fire_timer timeoutId (snd (fire_timer timeoutId w))
  = (JS.Ok tt, snd (fire_timer timeoutId w))
  /\ (timers w !! timeoutId = None -> fire_timer timeoutId w = (JS.Ok tt, w)).
Proof.
  destruct w as [h q t n f l s]. unfold fire_timer. run. split.
  - destruct (t !! timeoutId) as [[filePath delayMs]|] eqn:E; run.
    + rewrite cleanup_callback_run. run. rewrite lookup_delete_eq. reflexivity.
    + rewrite E. reflexivity.
  - intros ->. reflexivity.
Qed.

(** *** Properties of the state that the handlers keep *)

Section Preserves.

Variable I : world -> Prop.

Hypothesis I_logs : forall w l, I w -> I (set_logs l w).
Hypothesis I_history : forall w h, I w -> I (set_history h w).
Hypothesis I_sent : forall w r, I w -> I (set_sent r w).
Hypothesis I_audio : forall w p data delayMs,
  I w -> I (snd (scheduleAudioCleanup p delayMs (snd (writeFileSync p data w)))).

Lemma preserves_ret {A} (a : A) : preserves I (ret a).
Proof. intros w H. exact H. Qed.

Lemma preserves_throw {A} (e : JS.exn) : preserves I (throw (A := A) e).
Proof. intros w H. exact H. Qed.

Lemma preserves_await {A} (r : JS.result A) : preserves I (await r).
Proof. intros w H. exact H. Qed.

Lemma preserves_gets {A} (f : world -> A) : preserves I (gets f).
Proof. intros w H. exact H. Qed.

Lemma preserves_bind {A B} (m : M A) (k : A -> M B) :
  preserves I m -> (forall a, preserves I (k a)) -> preserves I (bind m k).
Proof.
  intros Hm Hk w H. unfold bind. specialize (Hm w H).
  destruct (m w) as [[a|e] w1]; cbn [snd] in *; [|exact Hm]. apply Hk, Hm.
Qed.

Lemma preserves_try_catch {A} (body : M A) (handler : JS.exn -> M A) :
  preserves I body -> (forall e, preserves I (handler e)) ->
  preserves I (try_catch body handler).
Proof.
  intros Hm Hk w H. unfold try_catch. specialize (Hm w H).
  destruct (body w) as [[a|e] w1]; cbn [snd] in *; [exact Hm|]. apply Hk, Hm.
Qed.

Lemma preserves_log (l : level) (msg : string) (m : list (string * string)) :
  preserves I (log l msg m).
Proof. intros w H. apply I_logs, H. Qed.

Lemma preserves_history (f : world -> gmap string (list turn)) :
  preserves I (modify (fun w => set_history (f w) w)).
Proof. intros w H. apply I_history, H. Qed.

Lemma preserves_chat_completions_create (x : ambient) (request : chat_request) :
  preserves I (chat_completions_create x request).
Proof.
  apply preserves_bind; [|intros _; apply preserves_await].
  intros w H. apply I_sent, H.
Qed.

(** Writing an audio file, logging, and scheduling its deletion. *)
Lemma preserves_audio {B} (p data : string) (l : level) (msg : string)
    (m : list (string * string)) (delayMs : N) (k : unit -> M B) :
  (forall u, preserves I (k u)) ->
  preserves I (bind (writeFileSync p data)
                 (fun _ => bind (log l msg m)
                   (fun _ => bind (scheduleAudioCleanup p delayMs) k))).
Proof.
  intros Hk w H. pose proof (I_audio w p data delayMs H) as Haudio.
  destruct w as [h q t n f lg s]. revert Haudio. unfold scheduleAudioCleanup. run.
  intros Haudio. apply Hk.
  apply (I_logs _ (lg ++ [Log l msg m])) in Haudio. exact Haudio.
Qed.

(** Decomposes a goal [preserves I m] along the structure of [m]. *)
Ltac preserving :=
  repeat first
    [ apply preserves_ret | apply preserves_throw | apply preserves_await
    | apply preserves_gets | apply preserves_log | apply preserves_history
    | apply preserves_chat_completions_create
    | apply preserves_audio; intros ?
    | apply preserves_bind; [|intros ?]
    | apply preserves_try_catch; [|intros ?]
    | match goal with
      | |- preserves I (if ?b then _ else _) => destruct b
      | |- preserves I (match ?o with Some _ => _ | None => _ end) => destruct o
      | |- preserves I (match ?o with [] => _ | _ :: _ => _ end) => destruct o
      end
    | progress unfold first_content, content_trim, first_audio, chat_messages,
        history_push, no_speech ].

Lemma preserves_detect (x : ambient) (text : string) :
  preserves I (detectLanguageAndCorrect x text).
Proof. unfold detectLanguageAndCorrect. preserving. Qed.

Lemma preserves_twilio_voice (cfg : config) (callSid : string) :
  preserves I (twilio_voice cfg callSid).
Proof. unfold twilio_voice. preserving. Qed.

Lemma preserves_call_status (callSid callStatus : string) :
  preserves I (call_status callSid callStatus).
Proof. unfold call_status. preserving. Qed.

Lemma preserves_handle_speech (cfg : config) (decode : string -> string) (x : ambient)
    (callSid : string) (userSpeech confidence : option string) :
  preserves I (handle_speech cfg decode x callSid userSpeech confidence).
Proof.
  unfold handle_speech, conversation_turn, voice_reply, handleSarvamAIResponse,
    sarvam_playback.
  repeat first [apply preserves_detect | progress preserving].
Qed.

Lemma preserves_chat (cfg : config) (decode : string -> string) (x : ambient)
    (sessionHeader : option string) (message : string)
    (clientHistory : option (list turn)) :
  preserves I (chat cfg decode x sessionHeader message clientHistory).
Proof.
  unfold chat, chat_reply, chat_synthesis.
  repeat first [apply preserves_detect | progress preserving].
Qed.

End Preserves.

(** *** No audio file without a pending deletion *)

Lemma tidy_logs (w : world) (l : list log_entry) : tidy w -> tidy (set_logs l w).
Proof. destruct w. exact id. Qed.

Lemma tidy_history (w : world) (h : gmap string (list turn)) :
  tidy w -> tidy (set_history h w).
Proof. destruct w. exact id. Qed.

Lemma tidy_sent (w : world) (r : list chat_request) : tidy w -> tidy (set_sent r w).
Proof. destruct w. exact id. Qed.

Lemma tidy_audio (w : world) (p data : string) (delayMs : N) :
  tidy w -> tidy (snd (scheduleAudioCleanup p delayMs (snd (writeFileSync p data w)))).
Proof.
  destruct w as [h q t n f l s]. unfold tidy, scheduleAudioCleanup. run.
  intros (Hfiles & Hqueue & Hfresh). split; [|split].
  - intros p' Hp'. destruct (decide (p = p')) as [<-|Hne].
    + rewrite lookup_insert_eq. eauto.
    + rewrite lookup_insert_ne by done. rewrite lookup_insert_ne in Hp' by done.
      apply Hfiles, Hp'.
  - intros p' timeoutId Hp'. destruct (decide (p = p')) as [<-|Hne].
    + rewrite lookup_insert_eq in Hp'. injection Hp' as <-.
      rewrite lookup_insert_eq. eauto.
    + rewrite lookup_insert_ne in Hp' by done.
      destruct (Hqueue p' timeoutId Hp') as [delayMs' Htimer].
      exists delayMs'. rewrite lookup_insert_ne; [exact Htimer|].
      intros <-. specialize (Hfresh n). rewrite Htimer in Hfresh.
      specialize (Hfresh ltac:(eauto)). lia.
  - intros timeoutId Htimer. destruct (decide (n = timeoutId)) as [<-|Hne]; [lia|].
    rewrite lookup_insert_ne in Htimer by done. specialize (Hfresh _ Htimer). lia.
Qed.

Lemma tidy_fire_timer (timeoutId : nat) : preserves tidy (fire_timer timeoutId).
Proof.
  intros w. destruct w as [h q t n f l s]. unfold fire_timer. run.
  destruct (t !! timeoutId) as [[filePath delayMs]|] eqn:E; run; [|exact id].
  rewrite cleanup_callback_run. unfold tidy. run.
  intros (Hfiles & Hqueue & Hfresh). split; [|split].
  - intros p Hp. destruct (decide (filePath = p)) as [<-|Hne].
    + rewrite lookup_delete_eq in Hp. destruct Hp as [? Hp]. discriminate.
    + rewrite lookup_delete_ne by done. rewrite lookup_delete_ne in Hp by done.
      apply Hfiles, Hp.
  - intros p timeoutId' Hp. destruct (decide (filePath = p)) as [<-|Hne].
    + rewrite lookup_delete_eq in Hp. discriminate.
    + rewrite lookup_delete_ne in Hp by done.
      destruct (Hqueue p timeoutId' Hp) as [delayMs' Htimer].
      exists delayMs'. rewrite lookup_delete_ne; [exact Htimer|].
      intros <-. rewrite E in Htimer. injection Htimer as -> _. done.
  - intros timeoutId' Htimer. apply Hfresh.
    destruct (decide (timeoutId = timeoutId')) as [<-|Hne].
    + rewrite lookup_delete_eq in Htimer. destruct Htimer as [? Htimer]. discriminate.
    + rewrite lookup_delete_ne in Htimer by done. exact Htimer.
Qed.

Lemma tidy_reachable (cfg : config) (decode : string -> string) (w : world) :
  reachable cfg decode w -> tidy w.
Proof.
  induction 1 as [|w ev Hw IH].
  - unfold tidy, empty_world. cbn [files audioCleanupQueue timers timer_seq].
    split; [|split]; [intros p [? Hp]|intros p ? Hp|intros ? [? Hp]];
      rewrite lookup_empty in Hp; discriminate.
  - revert w IH Hw.
    enough (preserves tidy (handle cfg decode ev)) as Hev by (intros w IH _; apply Hev, IH).
    destruct ev; cbn [handle]; [| | | |apply tidy_fire_timer];
      (apply preserves_bind; [|intros ?; apply preserves_ret]).
    + apply preserves_twilio_voice; auto using tidy_logs, tidy_history.
    + apply preserves_handle_speech; auto using tidy_logs, tidy_history, tidy_sent, tidy_audio.
    + apply preserves_call_status; auto using tidy_logs, tidy_history.
    + apply preserves_chat; auto using tidy_logs, tidy_history, tidy_sent, tidy_audio.
Qed.

(** X12. In every state reached from the empty state (no session, no
    file, no timer) through call starts, speech turns, status callbacks,
    web chats and timer firings, every file on disk is registered in the
    cleanup queue, every registration names a pending timer of that very
    path, and pending timers have identifiers below the next one: no audio
    file generated by these five steps is left without a pending deletion.
    The transcription route and its uploads are not among the steps. *)
Theorem reachable_tidy (cfg : config) (decode : string -> string) (w : world) :
  reachable cfg decode w -> tidy w.
Proof. apply tidy_reachable. Qed.

(** *** The flush at shutdown *)

Lemma force_cleanup_run (filePath : string) (timeoutId : nat) (w : world) :
  force_cleanup (filePath, timeoutId) w
  = (JS.Ok tt,
     World (conversationHistory w) (audioCleanupQueue w) (delete timeoutId (timers w))
       (timer_seq w) (delete filePath (files w))
       (logs w ++ match files w !! filePath with
                  | Some _ => [Log info ("Force cleaned up: " +:+ filePath) []]
                  | None => []
                  end)
       (sent w)).
Proof.
  destruct w as [h q t n f l s]. unfold force_cleanup, clearTimeout. run.
  destruct (f !! filePath) as [data|] eqn:E.
  - rewrite bool_decide_eq_true_2 by eauto. run. rewrite E. reflexivity.
  - rewrite bool_decide_eq_false_2 by (intros [? ?]; discriminate). run.
    rewrite app_nil_r, (delete_id f) by exact E. reflexivity.
Qed.

Lemma deleted_or_kept `{Countable K} {V} (m : gmap K V) (a k : K) (l : list K) :
  (if decide (k ∈ l) then None else delete a m !! k)
  = (if decide (k ∈ a :: l) then None else m !! k).
Proof.
  rewrite lookup_delete.
  destruct (decide (k ∈ l)) as [Hl|Hl], (decide (k ∈ a :: l)) as [Hal|Hal],
    (decide (a = k)) as [Hak|Hak]; try reflexivity; exfalso.
  - apply Hal, elem_of_cons. by right.
  - apply Hal, elem_of_cons. by right.
  - apply elem_of_cons in Hal as [->|Hal]; done.
  - apply Hal, elem_of_cons. by left.
Qed.

Lemma forEach_force_cleanup_run (entries : list (string * nat)) (w : world) :
  let result := forEach force_cleanup entries w in
  fst result = JS.Ok tt
  /\ conversationHistory (snd result) = conversationHistory w
  /\ audioCleanupQueue (snd result) = audioCleanupQueue w
  /\ (forall p, files (snd result) !! p
                = if decide (p ∈ entries.*1) then None else files w !! p)
  /\ (forall timeoutId, timers (snd result) !! timeoutId
                = if decide (timeoutId ∈ entries.*2) then None else timers w !! timeoutId)
  /\ (forall entry, entry ∈ logs (snd result) -> entry ∈ logs w \/ log_level entry = info).
Proof.
  revert w. induction entries as [|[filePath timeoutId] entries IH]; intros w; cbn zeta.
  - cbn. repeat split; auto.
  - assert (Hstep : forEach force_cleanup ((filePath, timeoutId) :: entries) w
                    = forEach force_cleanup entries
                        (snd (force_cleanup (filePath, timeoutId) w))).
    { cbn [forEach]. unfold bind. rewrite force_cleanup_run. reflexivity. }
    rewrite Hstep, force_cleanup_run. cbn [snd].
    destruct (IH (World (conversationHistory w) (audioCleanupQueue w)
                    (delete timeoutId (timers w)) (timer_seq w)
                    (delete filePath (files w))
                    (logs w ++ match files w !! filePath with
                               | Some _ => [Log info ("Force cleaned up: " +:+ filePath) []]
                               | None => []
                               end)
                    (sent w)))
      as (Hr & Hh & Hq & Hf & Ht & Hl).
    cbn [conversationHistory audioCleanupQueue files timers logs] in *.
    split; [exact Hr|]. split; [exact Hh|]. split; [exact Hq|]. split; [|split].
    + intros p. rewrite Hf. cbn [fmap list_fmap fst].
      apply deleted_or_kept.
    + intros id. rewrite Ht. cbn [fmap list_fmap snd].
      apply deleted_or_kept.
    + intros entry Hin. apply Hl in Hin as [Hin|Hin]; [|by right].
      apply elem_of_app in Hin as [Hin|Hin]; [by left|]. right.
      destruct (files w !! filePath); [|inversion Hin].
      apply list_elem_of_singleton in Hin as ->. reflexivity.
Qed.

Lemma queue_entry_listed (entries : list (string * nat)) (q : gmap string nat)
    (p : string) :
  entries ≡ₚ map_to_list q ->
  p ∈ entries.*1 <-> is_Some (q !! p).
Proof.
  intros Hperm. rewrite list_elem_of_fmap. split.
  - intros [[p' timeoutId] [-> Hin]]. rewrite Hperm in Hin.
    apply elem_of_map_to_list in Hin. eauto.
  - intros [timeoutId Hq]. exists (p, timeoutId). split; [reflexivity|].
    rewrite Hperm. apply elem_of_map_to_list, Hq.
Qed.

Lemma queue_timer_listed (entries : list (string * nat)) (q : gmap string nat)
    (p : string) (timeoutId : nat) :
  entries ≡ₚ map_to_list q -> q !! p = Some timeoutId -> timeoutId ∈ entries.*2.
Proof.
  intros Hperm Hq. apply list_elem_of_fmap. exists (p, timeoutId).
  split; [reflexivity|]. rewrite Hperm. apply elem_of_map_to_list, Hq.
Qed.

(** X13. [cleanupAllAudioFiles], run over the queue in whatever order it
    was filled, returns normally and logs no error; afterwards the queue
    is empty, every path that was registered is absent from disk and its
    registered timer is cancelled, while files that were not registered
    and the session store are untouched. A second flush changes nothing. *)
Theorem cleanupAllAudioFiles_flushes (entries : list (string * nat)) (w : world) :
  entries ≡ₚ map_to_list (audioCleanupQueue w) ->
  let result := cleanupAllAudioFiles entries w in
  fst result = JS.Ok tt
  /\ audioCleanupQueue (snd result) = ∅
  /\ (forall p timeoutId,
        audioCleanupQueue w !! p = Some timeoutId ->
        files (snd result) !! p = None /\ timers (snd result) !! timeoutId = None)
  /\ (forall p, audioCleanupQueue w !! p = None ->
        files (snd result) !! p = files w !! p)
  /\ conversationHistory (snd result) = conversationHistory w
  /\ (forall entry, entry ∈ logs (snd result) -> entry ∈ logs w \/ log_level entry = info)
  /\ cleanupAllAudioFiles [] (snd result) = (JS.Ok tt, snd result).
Proof.
  intros Hperm. cbn zeta.
  destruct (forEach_force_cleanup_run entries w) as (Hr & Hh & Hq & Hf & Ht & Hl).
  assert (Hrun : cleanupAllAudioFiles entries w
                 = (JS.Ok tt, set_queue ∅ (snd (forEach force_cleanup entries w)))).
  { unfold cleanupAllAudioFiles, bind.
    destruct (forEach force_cleanup entries w) as [r w']. cbn [fst snd] in *.
    subst r. reflexivity. }
  rewrite Hrun. clear Hrun.
  destruct (forEach force_cleanup entries w) as [r [h q t n f l s]].
  cbn [fst snd set_queue conversationHistory audioCleanupQueue files timers logs] in *.
  split; [done|]. split; [done|]. split; [|split; [|split; [done|split; [done|done]]]].
  - intros p timeoutId Hp. rewrite Hf, Ht.
    rewrite decide_True by (eapply queue_entry_listed; eauto).
    rewrite decide_True by (eapply queue_timer_listed; eauto). done.
  - intros p Hp. rewrite Hf. rewrite decide_False; [done|].
    rewrite (queue_entry_listed _ _ _ Hperm), Hp. intros [? ?]. discriminate.
Qed.

(** X14. In every state reached from the empty state through call starts,
    speech turns, status callbacks, web chats and timer firings, the flush
    at shutdown leaves no file on disk: every audio file that these steps
    generated and that is still there is deleted by
    [cleanupAllAudioFiles]. *)
Theorem shutdown_leaves_no_audio_file (cfg : config) (decode : string -> string)
    (w : world) (entries : list (string * nat)) :
  reachable cfg decode w ->
  entries ≡ₚ map_to_list (audioCleanupQueue w) ->
  files (snd (cleanupAllAudioFiles entries w)) = ∅.
Proof.
  intros Hreach Hperm. destruct (tidy_reachable cfg decode w Hreach) as (Hfiles & _ & _).
  unfold cleanupAllAudioFiles, bind.
  destruct (forEach_force_cleanup_run entries w) as (Hr & _ & _ & Hf & _ & _).
  destruct (forEach force_cleanup entries w) as [r [h q t n f l s]].
  cbn [fst snd files] in *. subst r. cbn.
  apply map_eq. intros p. rewrite Hf, lookup_empty. case_decide as Hin; [done|].
  destruct (files w !! p) eqn:Hp; [|done].
  exfalso. apply Hin, (queue_entry_listed _ _ _ Hperm), Hfiles. eauto.
Qed.

(* ===================================================================== *)
(** ** The translation helpers *)
(* ===================================================================== *)

(** X15. [translateToEnglish] never throws and changes nothing but the
    logs. For the source language "en", and without a usable key (unset,
    blank, or the placeholder), it returns the text as it is without
    calling the provider and without logging; when the provider call is
    rejected it returns the text as it is; when the call resolves it
    returns the first element of the array it resolved to. *)
Theorem translateToEnglish_fails_soft (o : outside) (text sourceLanguage : string)
    (w : world) :
  exists r w',
    translateToEnglish o text sourceLanguage w = (JS.Ok r, w')
    /\ logged_and_sent [] w w'
    /\ (sourceLanguage = "en" \/ translate_configured o = false ->
        r = Some text /\ w' = w)
    /\ (forall e, translate_translate o text "en" = JS.Throw e -> r = Some text)
    /\ (forall translated,
          sourceLanguage <> "en" -> translate_configured o = true ->
          translate_translate o text "en" = JS.Ok translated -> r = head translated).
Proof.
  destruct w as [h q t n f l s]. unfold translateToEnglish, logged_and_sent. run.
  destruct (String.eqb sourceLanguage "en") eqn:Hen; run.
  { apply String.eqb_eq in Hen. eexists _, _. split; [reflexivity|].
    split; [exists []; by rewrite !app_nil_r|]. split; [done|]. split; [done|].
    intros translated Hne. done. }
  apply String.eqb_neq in Hen.
  destruct (translate_configured o) eqn:Hkey; cbn [negb]; run.
  - destruct (translate_translate o text "en") as [translated|e]; run;
      (eexists _, _; split; [reflexivity|]; split; [eexists [_]; by rewrite app_nil_r|]).
    + split; [intros [?|?]; done|]. split; [done|]. by intros ? _ _ [= <-].
    + split; [intros [?|?]; done|]. split; [done|]. done.
  - eexists _, _. split; [reflexivity|].
    split; [exists []; by rewrite !app_nil_r|]. split; [done|]. split; [done|]. done.
Qed.

(** X16. [translateFromEnglish] behaves the same way towards the target
    language: the text comes back as it is for the target "en", without a
    usable key, and when the provider call is rejected; otherwise the
    first element of the provider's array for that target is returned. It
    never throws and changes nothing but the logs. *)
Theorem translateFromEnglish_fails_soft (o : outside) (text targetLanguage : string)
    (w : world) :
  exists r w',
    translateFromEnglish o text targetLanguage w = (JS.Ok r, w')
    /\ logged_and_sent [] w w'
    /\ (targetLanguage = "en" \/ translate_configured o = false ->
        r = Some text /\ w' = w)
    /\ (forall e, translate_translate o text targetLanguage = JS.Throw e -> r = Some text)
    /\ (forall translated,
          targetLanguage <> "en" -> translate_configured o = true ->
          translate_translate o text targetLanguage = JS.Ok translated ->
          r = head translated).
Proof.
  destruct w as [h q t n f l s]. unfold translateFromEnglish, logged_and_sent. run.
  destruct (String.eqb targetLanguage "en") eqn:Hen; run.
  { apply String.eqb_eq in Hen. eexists _, _. split; [reflexivity|].
    split; [exists []; by rewrite !app_nil_r|]. split; [done|]. split; [done|].
    intros translated Hne. done. }
  apply String.eqb_neq in Hen.
  destruct (translate_configured o) eqn:Hkey; cbn [negb]; run.
  - destruct (translate_translate o text targetLanguage) as [translated|e]; run;
      (eexists _, _; split; [reflexivity|]; split; [eexists [_]; by rewrite app_nil_r|]).
    + split; [intros [?|?]; done|]. split; [done|]. by intros ? _ _ [= <-].
    + split; [intros [?|?]; done|]. split; [done|]. done.
  - eexists _, _. split; [reflexivity|].
    split; [exists []; by rewrite !app_nil_r|]. split; [done|]. split; [done|]. done.
Qed.

(* ===================================================================== *)
(** ** Transcription *)
(* ===================================================================== *)

Section Whisper.

Variables (tempDir : string) (x : ambient) (o : outside).

(** The request that [transcribeWithWhisper] sends for the bytes [data]. *)
Let whisper_request (data : string) (language : option string) : transcription_request :=
  TranscriptionRequest data "whisper-1" "verbose_json"
    (if JS.truthy_str language then language else None).

(** The value returned for a provider reply. *)
Let transcript_of (t : transcription) : transcript :=
  Transcript (transcription_text t)
    (if JS.truthy_str (transcription_language t)
     then default EmptyString (transcription_language t) else "en")
    (transcription_duration t).

Lemma transcribeWithWhisper_path_run (path : string) (language : option string)
    (w : world) :
  exists entries,
    transcribeWithWhisper tempDir x o (AudioPath path) language w
    = (match files w !! path with
       | None =>
           JS.Throw (JS.Error ("Whisper transcription failed: " +:+
                                 ("Audio file not found: " +:+ path)))
       | Some data =>
           match transcriptions_create o (whisper_request data language) with
           | JS.Ok t => JS.Ok (transcript_of t)
           | JS.Throw e =>
               JS.Throw (JS.Error ("Whisper transcription failed: " +:+ JS.message e))
           end
       end,
       World (conversationHistory w) (audioCleanupQueue w) (timers w) (timer_seq w)
         (files w) (logs w ++ entries) (sent w)).
Proof.
  destruct w as [h q t n f l s]. unfold transcribeWithWhisper, whisper_attempt. run.
  destruct (f !! path) as [data|] eqn:E.
  - rewrite bool_decide_eq_true_2 by eauto. run. rewrite E. cbn [default].
    fold (whisper_request data language).
    destruct (transcriptions_create o _) as [tr|e]; run;
      rewrite <- ?app_assoc; cbn [app]; eexists; reflexivity.
  - rewrite bool_decide_eq_false_2 by (intros [? ?]; discriminate). run.
    eexists. reflexivity.
Qed.

Lemma transcribeWithWhisper_buffer_run (data : string) (language : option string)
    (w : world) :
  let temp := tempDir +:+ "/whisper_" +:+ uuidv4 x +:+ ".wav" in
  exists entries,
    transcribeWithWhisper tempDir x o (AudioBuffer data) language w
    = (match transcriptions_create o (whisper_request data language) with
       | JS.Ok t => JS.Ok (transcript_of t)
       | JS.Throw e =>
           JS.Throw (JS.Error ("Whisper transcription failed: " +:+ JS.message e))
       end,
       World (conversationHistory w) (audioCleanupQueue w) (timers w) (timer_seq w)
         match transcriptions_create o (whisper_request data language) with
         | JS.Ok _ => delete temp (files w)
         | JS.Throw _ => <[temp := data]> (files w)
         end
         (logs w ++ entries) (sent w)).
Proof.
  cbn zeta. destruct w as [h q t n f l s].
  unfold transcribeWithWhisper, whisper_attempt, path_join. run.
  change (tempDir +:+ "/" +:+ "whisper_" +:+ uuidv4 x +:+ ".wav")
    with (tempDir +:+ "/whisper_" +:+ uuidv4 x +:+ ".wav").
  rewrite !lookup_insert_eq. cbn [default]. fold (whisper_request data language).
  destruct (transcriptions_create o _) as [tr|e]; run.
  - rewrite bool_decide_eq_true_2 by eauto. run. rewrite lookup_insert_eq.
    rewrite delete_insert_eq, <- ?app_assoc. cbn [app]. eexists. reflexivity.
  - rewrite <- ?app_assoc. cbn [app]. eexists. reflexivity.
Qed.

End Whisper.

(** X17. Whatever its input, [transcribeWithWhisper] fails only with an
    [Error] whose message starts with "Whisper transcription failed: ",
    followed by the message of the cause. For an input that is neither a
    buffer nor a path the cause is "Invalid audio input type"; for a path
    with no file behind it the cause is "Audio file not found: <path>",
    the provider is not consulted and the disk is untouched. *)
Theorem transcribeWithWhisper_failures_are_wrapped
    (tempDir : string) (x : ambient) (o : outside) (audioInput : audio_input)
    (language : option string) (w : world) :
  let result := transcribeWithWhisper tempDir x o audioInput language w in
  (forall e, fst result = JS.Throw e ->
     exists cause, e = JS.Error ("Whisper transcription failed: " +:+ cause))
  /\ (audioInput = AudioOther ->
      fst result = JS.Throw (JS.Error ("Whisper transcription failed: " +:+
                                         "Invalid audio input type"))
      /\ files (snd result) = files w)
  /\ (forall path, audioInput = AudioPath path -> files w !! path = None ->
      fst result = JS.Throw (JS.Error ("Whisper transcription failed: " +:+
                                         ("Audio file not found: " +:+ path)))
      /\ files (snd result) = files w).
Proof.
  cbn zeta. split; [|split].
  - intros e. destruct audioInput as [data|path|].
    + destruct (transcribeWithWhisper_buffer_run tempDir x o data language w)
        as [entries ->].
      cbn [fst]. destruct (transcriptions_create o _); [discriminate|].
      intros [= <-]. eauto.
    + destruct (transcribeWithWhisper_path_run tempDir x o path language w)
        as [entries ->].
      cbn [fst]. destruct (files w !! path); [|intros [= <-]; eauto].
      destruct (transcriptions_create o _); [discriminate|].
      intros [= <-]. eauto.
    + destruct w. cbn. intros [= <-]. eauto.
  - intros ->. destruct w. split; reflexivity.
  - intros path -> Hmissing.
    destruct (transcribeWithWhisper_path_run tempDir x o path language w) as [entries ->].
    rewrite Hmissing. split; reflexivity.
Qed.

(** X18. Called with a buffer, [transcribeWithWhisper] writes the bytes to
    [<tempDir>/whisper_<uuid>.wav] and sends them to the provider. When the
    provider answers, the temporary file is removed again (a disk that did
    not hold that path is exactly as before) and the transcript is
    returned, with the language "en" when the provider names none. When
    the provider call is rejected, the temporary file stays on disk. *)
Theorem transcribeWithWhisper_buffer_temporary_file
    (tempDir : string) (x : ambient) (o : outside) (data : string)
    (language : option string) (w : world) :
  let temp := tempDir +:+ "/whisper_" +:+ uuidv4 x +:+ ".wav" in
  let request :=
    TranscriptionRequest data "whisper-1" "verbose_json"
      (if JS.truthy_str language then language else None) in
  let result := transcribeWithWhisper tempDir x o (AudioBuffer data) language w in
  (forall t, transcriptions_create o request = JS.Ok t ->
     fst result
     = JS.Ok (Transcript (transcription_text t)
                (if JS.truthy_str (transcription_language t)
                 then default EmptyString (transcription_language t) else "en")
                (transcription_duration t))
     /\ files (snd result) !! temp = None
     /\ (files w !! temp = None -> files (snd result) = files w))
  /\ (forall e, transcriptions_create o request = JS.Throw e ->
      fst result = JS.Throw (JS.Error ("Whisper transcription failed: " +:+ JS.message e))
      /\ files (snd result) !! temp = Some data).
Proof.
  cbn zeta.
  destruct (transcribeWithWhisper_buffer_run tempDir x o data language w) as [entries ->].
  cbn [fst snd files]. split.
  - intros t ->. split; [reflexivity|]. split; [apply lookup_delete_eq|apply delete_id].
  - intros e ->. split; [reflexivity|apply lookup_insert_eq].
Qed.

Lemma transcribe_run (tempDir : string) (x : ambient) (o : outside) (f : upload)
    (hint sessionHeader : option string) (w : world) :
  let language := if JS.truthy_str hint then hint else None in
  exists entries,
    transcribe tempDir x o (Some f) hint sessionHeader w
    = (JS.Ok
         match files w !! upload_path f with
         | None =>
             TranscribeError 500 "Transcription failed"
               (Some ("Whisper transcription failed: " +:+
                        ("Audio file not found: " +:+ upload_path f)))
         | Some data =>
             match transcriptions_create o
                     (TranscriptionRequest data "whisper-1" "verbose_json"
                        (if JS.truthy_str language then language else None)) with
             | JS.Ok t =>
                 TranscribeOk (transcription_text t)
                   (if JS.truthy_str (transcription_language t)
                    then default EmptyString (transcription_language t) else "en")
                   (transcription_duration t)
             | JS.Throw e =>
                 TranscribeError 500 "Transcription failed"
                   (Some ("Whisper transcription failed: " +:+ JS.message e))
             end
         end,
       World (conversationHistory w) (audioCleanupQueue w) (timers w) (timer_seq w)
         (delete (upload_path f) (files w)) (logs w ++ entries) (sent w)).
Proof.
  cbn zeta. destruct w as [h q t n fs l s]. unfold transcribe, remove_upload. run.
  match goal with
  | |- context [transcribeWithWhisper ?d ?x ?o ?i ?lg ?W] =>
      destruct (transcribeWithWhisper_path_run d x o (upload_path f) lg W) as [entries ->]
  end.
  cbn [files conversationHistory audioCleanupQueue timers timer_seq logs sent].
  destruct (fs !! upload_path f) as [data|] eqn:E.
  - destruct (transcriptions_create o _) as [tr|e]; run;
      rewrite bool_decide_eq_true_2 by eauto; run; rewrite E;
      rewrite <- ?app_assoc; cbn [app]; eexists; reflexivity.
  - run. rewrite E. rewrite bool_decide_eq_false_2 by (intros [? ?]; discriminate). run.
    rewrite (delete_id fs) by exact E.
    rewrite <- ?app_assoc. cbn [app]. eexists. reflexivity.
Qed.

(** X19. Whenever [/transcribe] is given an uploaded file it answers
    (it never throws) and the uploaded file is gone from disk afterwards,
    whether the transcription succeeded, the provider failed, or the file
    had already disappeared; no other file is touched, and queue, timers
    and session store are as before. *)
Theorem transcribe_always_removes_upload
    (tempDir : string) (x : ambient) (o : outside) (f : upload)
    (hint sessionHeader : option string) (w : world) :
  let result := transcribe tempDir x o (Some f) hint sessionHeader w in
  (exists answer, fst result = JS.Ok answer)
  /\ files (snd result) !! upload_path f = None
  /\ (forall other, other <> upload_path f ->
        files (snd result) !! other = files w !! other)
  /\ audioCleanupQueue (snd result) = audioCleanupQueue w
  /\ timers (snd result) = timers w
  /\ conversationHistory (snd result) = conversationHistory w.
Proof.
  cbn zeta.
  destruct (transcribe_run tempDir x o f hint sessionHeader w) as [entries ->].
  cbn [fst snd files audioCleanupQueue timers conversationHistory].
  split; [eauto|]. split; [apply lookup_delete_eq|]. split; [|done].
  intros other Hne. apply lookup_delete_ne. done.
Qed.

(** X20. The answers of [/transcribe]. Without an uploaded file: status
    400, "No audio file provided", and the state is exactly as before.
    With a file that is on disk and a provider that answers: the text, the
    language (or "en" when the provider names none) and the duration. With
    a provider that rejects the call: status 500, "Transcription failed",
    and as details the provider's message behind the prefix "Whisper
    transcription failed: ". An empty language hint is sent as no hint. *)
Theorem transcribe_answers
    (tempDir : string) (x : ambient) (o : outside)
    (hint sessionHeader : option string) (w : world) :
  transcribe tempDir x o None hint sessionHeader w
  = (JS.Ok (TranscribeError 400 "No audio file provided" None), w)
  /\ forall f data,
       files w !! upload_path f = Some data ->
       let request :=
         TranscriptionRequest data "whisper-1" "verbose_json"
           match hint with
           | Some h => if String.eqb h EmptyString then None else Some h
           | None => None
           end in
       let result := transcribe tempDir x o (Some f) hint sessionHeader w in
       (forall t, transcriptions_create o request = JS.Ok t ->
          fst result
          = JS.Ok (TranscribeOk (transcription_text t)
                     match transcription_language t with
                     | Some lang => if String.eqb lang EmptyString then "en" else lang
                     | None => "en"
                     end
                     (transcription_duration t)))
       /\ (forall e, transcriptions_create o request = JS.Throw e ->
           fst result
           = JS.Ok (TranscribeError 500 "Transcription failed"
                      (Some ("Whisper transcription failed: " +:+ JS.message e)))).
Proof.
  split; [destruct w; reflexivity|].
  intros f data Hdata. cbn zeta.
  destruct (transcribe_run tempDir x o f hint sessionHeader w) as [entries ->].
  rewrite Hdata. cbn [fst].
  assert (Hhint : (if JS.truthy_str (if JS.truthy_str hint then hint else None)
                   then (if JS.truthy_str hint then hint else None) else None)
                  = match hint with
                    | Some h => if String.eqb h EmptyString then None else Some h
                    | None => None
                    end).
  { destruct hint as [h|]; [|reflexivity]. cbn.
    destruct (String.eqb h EmptyString) eqn:E; cbn; [reflexivity|]. rewrite E. reflexivity. }
  rewrite Hhint. split.
  - intros t ->. do 2 f_equal.
    destruct (transcription_language t) as [lang|]; [|reflexivity]. cbn.
    destruct (String.eqb lang EmptyString); reflexivity.
  - intros e ->. reflexivity.
Qed.

(* ===================================================================== *)
(** ** More on correction and on the stored transcripts *)
(* ===================================================================== *)

Lemma trimStart_forall (p : ascii -> bool) (s : string) :
  string_forall p s = true -> string_forall p (Text.trimStart s) = true.
Proof.
  induction s as [|c s IH]; [done|]. cbn [Text.trimStart].
  destruct (Text.is_space c); [|done]. cbn. intros H.
  apply andb_prop in H as [_ H]. apply IH, H.
Qed.

Lemma trimEnd_forall (p : ascii -> bool) (s : string) :
  string_forall p s = true -> string_forall p (Text.trimEnd s) = true.
Proof.
  induction s as [|c s IH]; [done|]. cbn [Text.trimEnd string_forall]. intros H.
  apply andb_prop in H as [Hc H]. specialize (IH H).
  destruct (Text.trimEnd s) as [|c' s'].
  - destruct (Text.is_space c); [done|]. cbn. rewrite Hc. done.
  - cbn [string_forall] in *. rewrite Hc. exact IH.
Qed.

Lemma take_line_no_break (s : string) :
  string_forall no_line_break (Text.take_line s) = true.
Proof.
  induction s as [|c s IH]; [done|]. cbn [Text.take_line].
  destruct (Text.is_line_terminator c) eqn:E; [done|].
  cbn [string_forall]. unfold no_line_break at 1. rewrite E. exact IH.
Qed.

Lemma match_corrected_no_break (s c : string) :
  Text.match_corrected s = Some c -> string_forall no_line_break c = true.
Proof.
  unfold Text.match_corrected. intros H.
  apply search_inv in H as [u H].
  destruct (Text.literal_ci "CORRECTED:" u) as [v|]; [|discriminate].
  cbn in H. apply spaces_then_inv in H as [t H].
  unfold Text.dot_plus in H. pose proof (take_line_no_break t) as Hline.
  destruct (Text.take_line t); [discriminate|]. injection H as <-. exact Hline.
Qed.

(** X21. The corrected text that [detectLanguageAndCorrect] returns is
    either the utterance it was given, unchanged, or a single line: text
    taken from a CORRECTED tag never contains a line feed or a carriage
    return. *)
Theorem corrected_text_is_original_or_one_line
    (x : ambient) (text : string) (w : world) (r : correction) (w' : world) :
  detectLanguageAndCorrect x text w = (JS.Ok r, w') ->
  correctedText r = text \/ string_forall no_line_break (correctedText r) = true.
Proof.
  intros Hrun. destruct (detect_run x text w) as (w1 & Hrun' & _).
  rewrite Hrun in Hrun'. injection Hrun' as -> _.
  unfold correction_of. destruct (reply_text _) as [s|]; [|by left]. cbn.
  destruct (Text.match_corrected (Text.trim s)) as [c|] eqn:E; [|by left].
  right. unfold Text.trim. apply trimEnd_forall, trimStart_forall.
  eapply match_corrected_no_break, E.
Qed.

(** X22. A speech result never rewrites, shortens or removes a stored
    transcript and never creates one: afterwards every session that was
    stored is still stored, with its old transcript as a prefix of the new
    one and zero or two turns more, and sessions that were not stored are
    still not stored. *)
Theorem handle_speech_only_appends
    (cfg : config) (decode : string -> string) (x : ambient) (callSid : string)
    (userSpeech confidence : option string) (w : world) (sid : string) :
  let after := snd (handle_speech cfg decode x callSid userSpeech confidence w) in
  match conversationHistory w !! sid with
  | Some h =>
      exists added,
        conversationHistory after !! sid = Some (h ++ added)
        /\ (length added = 0 \/ length added = 2)
  | None => conversationHistory after !! sid = None
  end.
Proof.
  cbn zeta.
  destruct (handle_speech_store cfg decode x callSid userSpeech confidence w)
    as [->|(history & u & a & Hknown & _ & _ & ->)].
  - destruct (conversationHistory w !! sid) as [h|]; [|done].
    exists []. rewrite app_nil_r. auto.
  - destruct (decide (callSid = sid)) as [<-|Hne].
    + rewrite Hknown, lookup_insert_eq. exists [u; a]. auto.
    + rewrite lookup_insert_ne by done.
      destruct (conversationHistory w !! sid) as [h|]; [|done].
      exists []. rewrite app_nil_r. auto.
Qed.

(* ===================================================================== *)
(** ** The further properties at work on sample requests *)
(* ===================================================================== *)

Lemma handle_speech_reprompts_unheard_or_unknown_witness :
  conversationHistory empty_world !! Sample.callSid = None
  /\ exists twiml w',
       handle_speech Sample.cfg Sample.decode Sample.answering Sample.callSid
         (Some "I like drawing") (Some "0.93") empty_world = (JS.Ok (Xml twiml), w')
       /\ sent w' = [].
Proof.
  split; [reflexivity|].
  destruct (handle_speech_reprompts_unheard_or_unknown Sample.cfg Sample.decode
              Sample.answering Sample.callSid (Some "I like drawing") (Some "0.93")
              empty_world) as (w' & Hrun & [entries ->]).
  - right. right. right. reflexivity.
  - eexists _, _. split; [exact Hrun|reflexivity].
Defined.

Lemma twilio_voice_starts_afresh_witness :
  conversationHistory Sample.exchanged !! Sample.callSid
  = Some [ Turn "system" (Some (systemPrompt Sample.cfg)) None;
           Turn "user" (Some "I like drawing") (Some (UserMeta "en" "I like drawing"));
           Turn "assistant" (Some Sample.advice) (Some (AssistantMeta "en")) ]
  /\ conversationHistory (snd (twilio_voice Sample.cfg Sample.callSid Sample.exchanged))
     !! Sample.callSid
     = Some [Turn "system" (Some (systemPrompt Sample.cfg)) None]
  /\ conversationHistory
       (snd (call_status Sample.callSid "completed"
               (snd (twilio_voice Sample.cfg Sample.callSid empty_world))))
     = conversationHistory empty_world.
Proof.
  split; [reflexivity|]. split.
  - apply (twilio_voice_starts_afresh Sample.cfg Sample.callSid Sample.exchanged).
  - apply (twilio_voice_starts_afresh Sample.cfg Sample.callSid empty_world);
      reflexivity.
Defined.

Lemma detected_language_is_two_lower_case_letters_witness :
  languageName_of "fr" = "English".
Proof.
  apply (detected_language_is_two_lower_case_letters
           (Sample.world_with Sample.tagged_french Sample.unreachable (Sample.audio []) None)
           "jaime desiner" empty_world (Correction "fr" "j'aime dessiner") _ eq_refl).
Defined.

Lemma chat_forwards_history_and_reply_witness :
  sent (snd (chat Sample.cfg Sample.decode Sample.voiced (Some "web-7") "I like drawing"
               (Some [Turn "assistant" (Some canned_greeting) None]) empty_world))
  = [ correction_request "I like drawing";
      turn_request Sample.cfg
        [ Turn "system" (Some (web_system_content Sample.cfg "English")) None;
          Turn "assistant" (Some canned_greeting) None;
          Turn "user" (Some "I like drawing") None ] ].
Proof.
  apply (chat_forwards_history_and_reply Sample.cfg Sample.decode Sample.voiced
           (Some "web-7") "I like drawing" [Turn "assistant" (Some canned_greeting) None]
           empty_world (Some Sample.advice));
    [discriminate|reflexivity].
Defined.

Lemma chat_synthesis_writes_and_schedules_or_skips_witness :
  fst (chat Sample.cfg Sample.decode Sample.voiced (Some "web-7") "I like drawing"
         (Some []) empty_world)
  = JS.Ok (Json 200 (ChatReply "en" (Some Sample.advice)
                       (Some "/audio/1b9d6bcd-bbfd-4b2d-9b5d-ab8dfbbd4bed.wav")))
  /\ fst (chat Sample.cfg Sample.decode Sample.silent (Some "web-7") "I like drawing"
            (Some []) empty_world)
     = JS.Ok (Json 200 (ChatReply "en" (Some Sample.advice) None)).
Proof.
  split.
  - destruct (chat_synthesis_writes_and_schedules_or_skips Sample.cfg Sample.decode
                Sample.voiced (Some "web-7") "I like drawing" [] empty_world
                (Some Sample.advice) ltac:(discriminate) eq_refl) as [Hwritten _].
    destruct (Hwritten "UklGRiQAAABXQVZF" eq_refl eq_refl) as [Hanswer _].
    exact Hanswer.
  - destruct (chat_synthesis_writes_and_schedules_or_skips Sample.cfg Sample.decode
                Sample.silent (Some "web-7") "I like drawing" [] empty_world
                (Some Sample.advice) ltac:(discriminate) eq_refl) as [_ Hskipped].
    destruct Hskipped as [Hanswer _]; [right; reflexivity|].
    exact Hanswer.
Defined.

Lemma chat_without_history_answers_500_witness :
  sent (snd (chat Sample.cfg Sample.decode Sample.answering None "I like drawing" None
               empty_world))
  = [correction_request "I like drawing"].
Proof.
  apply (chat_without_history_answers_500 Sample.cfg Sample.decode Sample.answering None
           "I like drawing" empty_world).
  discriminate.
Defined.

Lemma chat_completion_rejected_answers_500_witness :
  fst (chat Sample.cfg Sample.decode Sample.failing None "I like drawing" (Some [])
         empty_world)
  = JS.Ok (Json 500 (ErrorBody "Failed to process message" "connect ECONNREFUSED")).
Proof.
  apply (chat_completion_rejected_answers_500 Sample.cfg Sample.decode Sample.failing None
           "I like drawing" [] empty_world (JS.Rejection "connect ECONNREFUSED"));
    [discriminate|reflexivity].
Defined.

Lemma handleSarvamAIResponse_plays_and_schedules_witness :
  fst (handleSarvamAIResponse Sample.cfg Sample.decode Sample.voiced []
         (Some Sample.advice) Sample.callSid "en" Sample.started)
  = JS.Ok
      [Gather (GatherAttrs "speech" ("/handle-speech?callSid=" +:+ Sample.callSid)
                 "auto" "en-IN" true)
         [Play "https://voice.example/audio/1b9d6bcd-bbfd-4b2d-9b5d-ab8dfbbd4bed.wav"]].
Proof.
  apply (handleSarvamAIResponse_plays_and_schedules Sample.cfg Sample.decode Sample.voiced
           [] (Some Sample.advice) Sample.callSid "en" Sample.started "UklGRiQAAABXQVZF").
  reflexivity.
Defined.

Lemma fire_timer_one_shot_witness :
  timers Studio.greeted !! 7 = None
  /\ fire_timer 7 Studio.greeted = (JS.Ok tt, Studio.greeted).
Proof.
  split; [reflexivity|].
  apply (fire_timer_one_shot 7 Studio.greeted). reflexivity.
Defined.

Lemma reachable_tidy_witness : tidy Studio.greeted.
Proof.
  apply (reachable_tidy Sample.cfg Sample.decode Studio.greeted).
  apply reachable_step, reachable_start.
Defined.

Lemma cleanupAllAudioFiles_flushes_witness :
  audioCleanupQueue Studio.greeted
  !! "/srv/app/public/audio/1b9d6bcd-bbfd-4b2d-9b5d-ab8dfbbd4bed.wav" = Some 0
  /\ files (snd (cleanupAllAudioFiles
                   [("/srv/app/public/audio/1b9d6bcd-bbfd-4b2d-9b5d-ab8dfbbd4bed.wav", 0)]
                   Studio.greeted))
     !! "/srv/app/public/audio/1b9d6bcd-bbfd-4b2d-9b5d-ab8dfbbd4bed.wav" = None.
Proof.
  split; [reflexivity|].
  destruct (cleanupAllAudioFiles_flushes
              [("/srv/app/public/audio/1b9d6bcd-bbfd-4b2d-9b5d-ab8dfbbd4bed.wav", 0)]
              Studio.greeted) as (_ & _ & Hgone & _).
  - vm_compute. reflexivity.
  - apply (Hgone _ 0). reflexivity.
Defined.

Lemma shutdown_leaves_no_audio_file_witness :
  files (snd (cleanupAllAudioFiles
                [("/srv/app/public/audio/1b9d6bcd-bbfd-4b2d-9b5d-ab8dfbbd4bed.wav", 0)]
                Studio.greeted)) = ∅.
Proof.
  apply (shutdown_leaves_no_audio_file Sample.cfg Sample.decode Studio.greeted).
  - apply reachable_step, reachable_start.
  - vm_compute. reflexivity.
Defined.

Lemma translateToEnglish_fails_soft_witness :
  exists w',
    translateToEnglish (Studio.translating (JS.Ok ["I like drawing"]) None)
      "mujhe drawing pasand hai" "hi" empty_world
    = (JS.Ok (Some "mujhe drawing pasand hai"), w').
Proof.
  destruct (translateToEnglish_fails_soft
              (Studio.translating (JS.Ok ["I like drawing"]) None)
              "mujhe drawing pasand hai" "hi" empty_world)
    as (r & w' & Hrun & _ & Hsame & _).
  destruct Hsame as [-> _]; [right; reflexivity|].
  exists w'. exact Hrun.
Defined.

Lemma translateFromEnglish_fails_soft_witness :
  exists w',
    translateFromEnglish
      (Studio.translating (JS.Throw (JS.Rejection "quota exceeded")) (Some "AIza-test"))
      "You may enjoy our Graphic Design course." "mr" empty_world
    = (JS.Ok (Some "You may enjoy our Graphic Design course."), w').
Proof.
  destruct (translateFromEnglish_fails_soft
              (Studio.translating (JS.Throw (JS.Rejection "quota exceeded"))
                 (Some "AIza-test"))
              "You may enjoy our Graphic Design course." "mr" empty_world)
    as (r & w' & Hrun & _ & _ & Hrejected & _).
  rewrite (Hrejected _ eq_refl) in Hrun. exists w'. exact Hrun.
Defined.

Lemma transcribeWithWhisper_failures_are_wrapped_witness :
  fst (transcribeWithWhisper Studio.tempDir Sample.answering
         (Studio.transcribing Studio.heard) (AudioPath "/srv/app/temp/missing.wav") None
         empty_world)
  = JS.Throw (JS.Error "Whisper transcription failed: Audio file not found: /srv/app/temp/missing.wav").
Proof.
  apply (transcribeWithWhisper_failures_are_wrapped Studio.tempDir Sample.answering
           (Studio.transcribing Studio.heard) (AudioPath "/srv/app/temp/missing.wav") None
           empty_world);
    reflexivity.
Defined.

Lemma transcribeWithWhisper_buffer_temporary_file_witness :
  files (snd (transcribeWithWhisper Studio.tempDir Sample.answering
                (Studio.transcribing (JS.Throw (JS.Rejection "connect ECONNREFUSED")))
                (AudioBuffer "RIFF") (Some "en") empty_world))
  !! "/srv/app/temp/whisper_1b9d6bcd-bbfd-4b2d-9b5d-ab8dfbbd4bed.wav" = Some "RIFF"
  /\ files (snd (transcribeWithWhisper Studio.tempDir Sample.answering
                   (Studio.transcribing Studio.heard)
                   (AudioBuffer "RIFF") (Some "en") empty_world))
     = files empty_world.
Proof.
  split.
  - destruct (transcribeWithWhisper_buffer_temporary_file Studio.tempDir Sample.answering
                (Studio.transcribing (JS.Throw (JS.Rejection "connect ECONNREFUSED")))
                "RIFF" (Some "en") empty_world) as [_ Hrejected].
    destruct (Hrejected _ eq_refl) as [_ Hleft]. exact Hleft.
  - destruct (transcribeWithWhisper_buffer_temporary_file Studio.tempDir Sample.answering
                (Studio.transcribing Studio.heard) "RIFF" (Some "en") empty_world)
      as [Hanswered _].
    destruct (Hanswered _ eq_refl) as (_ & _ & Hrestored). apply Hrestored. reflexivity.
Defined.

Lemma transcribe_always_removes_upload_witness :
  files Studio.with_upload !! upload_path Studio.uploaded = Some "RIFF"
  /\ files (snd (transcribe Studio.tempDir Sample.answering
                   (Studio.transcribing Studio.heard) (Some Studio.uploaded) None None
                   Studio.with_upload))
     !! upload_path Studio.uploaded = None.
Proof.
  split; [reflexivity|].
  apply (transcribe_always_removes_upload Studio.tempDir Sample.answering
           (Studio.transcribing Studio.heard) Studio.uploaded None None
           Studio.with_upload).
Defined.

Lemma transcribe_answers_witness :
  fst (transcribe Studio.tempDir Sample.answering (Studio.transcribing Studio.heard)
         (Some Studio.uploaded) (Some "en") None Studio.with_upload)
  = JS.Ok (TranscribeOk "I like drawing" "english" (5 # 2)).
Proof.
  destruct (transcribe_answers Studio.tempDir Sample.answering
              (Studio.transcribing Studio.heard) (Some "en") None Studio.with_upload)
    as [_ Hfile].
  destruct (Hfile Studio.uploaded "RIFF" eq_refl) as [Hok _].
  apply (Hok (Transcription "I like drawing" (Some "english") (5 # 2))).
  reflexivity.
Defined.

Lemma corrected_text_is_original_or_one_line_witness :
  "j'aime dessiner" = "jaime desiner"
  \/ string_forall no_line_break "j'aime dessiner" = true.
Proof.
  apply (corrected_text_is_original_or_one_line
           (Sample.world_with Sample.tagged_french Sample.unreachable (Sample.audio []) None)
           "jaime desiner" empty_world (Correction "fr" "j'aime dessiner") _ eq_refl).
Defined.

Lemma handleSarvamAIResponse_says_text_without_audio_witness :
  fst (handleSarvamAIResponse Sample.cfg Sample.decode
         (Sample.world_with Sample.tagged_english (Sample.reply Sample.advice)
            (JS.Throw (JS.Rejection "timeout of 30000ms exceeded"))
            (Some "sarvam-test-key"))
         [] (Some Sample.advice) Sample.callSid "en" Sample.started)
  = JS.Ok
      [Gather (GatherAttrs "speech" ("/handle-speech?callSid=" +:+ Sample.callSid)
                 "auto" (twilio_language (twilioConfig Sample.cfg)) true)
         [Say (Some Sample.advice)]].
Proof.
  apply (handleSarvamAIResponse_says_text_without_audio Sample.cfg Sample.decode
           (Sample.world_with Sample.tagged_english (Sample.reply Sample.advice)
              (JS.Throw (JS.Rejection "timeout of 30000ms exceeded"))
              (Some "sarvam-test-key"))
           [] (Some Sample.advice) Sample.callSid "en" Sample.started).
  reflexivity.
Defined.
